(** * crl-serials-validator: validator_lib/utilities.py

    A shallow embedding of the decision logic of [validator_lib/utilities.py]
    (the slash-year reconciler, the magic-word classifier, the unused-filename
    search and the fields/issues finder) together with the properties the
    specification states about them.

    Conventions of the embedding.
    - A Python [str] is a [string]; each [ascii] stands for the code point of
      the same number, so the texts covered are those whose code points are
      below 256.  On that range [\d] is [0-9] and str.lower() moves only
      [A-Z] and the upper-case Latin-1 letters.
    - A dynamically typed argument is a [pyval] ([None], an [int] or a [str]).
    - A call that may raise returns a [result]: [Ret v] or [Raise e].
    - A dict is a [gmap]; a lookup that Python would fail with KeyError is a
      [Raise KeyError].
    - Logging is a trace of records returned next to the value. *)

From Stdlib Require Import ZArith String Ascii List Lia Bool DecimalString.
From stdpp Require Import base gmap strings.
Import ListNotations.
Local Open Scope string_scope.
Local Open Scope list_scope.
Local Open Scope Z_scope.

(* ===================================================================== *)
(** * Definitions *)
(* ===================================================================== *)

(** ** Python values, exceptions and the builtins the module calls *)

Inductive pyval : Type :=
| PyNone
| PyInt (z : Z)
| PyStr (s : string).

Inductive exn : Type :=
| KeyError
| ValueError
| TypeError
| Exception (msg : string).

Inductive result (A : Type) : Type :=
| Ret (a : A)
| Raise (e : exn).
Arguments Ret {A} a.
Arguments Raise {A} e.

(** Sequencing: an exception raised by the first call leaves the function. *)
#[global] Instance result_bind : MBind result := fun A B k r =>
  match r with
  | Ret a => k a
  | Raise e => Raise e
  end.

#[global] Instance result_ret : MRet result := fun A a => Ret a.

Definition code (c : ascii) : N := N_of_ascii c.

Definition in_range (lo hi : N) (c : ascii) : bool :=
  ((lo <=? code c) && (code c <=? hi))%N.

(** [\d] and the digits int() reads, on code points below 256. *)
Definition is_digit (c : ascii) : bool := in_range 48 57 c.

Definition digit_val (c : ascii) : Z := Z.of_N (code c) - 48.

(** Whitespace for the methods of str (isspace, rstrip): TAB..CR, FS..US,
    SPACE, NEL, NBSP. *)
Definition is_space (c : ascii) : bool :=
  in_range 9 13 c || in_range 28 32 c || (code c =? 133)%N || (code c =? 160)%N.

(** Whitespace that int() passes over around a literal: TAB..CR and SPACE,
    and NEL and NBSP, which it reads as spaces.  FS..US are not among them:
    int() raises ValueError on a literal that has one. *)
Definition is_int_space (c : ascii) : bool :=
  in_range 9 13 c || (code c =? 32)%N || (code c =? 133)%N || (code c =? 160)%N.

(** [\w] of a str pattern: alphanumeric code points and the underscore.  Below
    256 these are the ASCII letters and digits, the Latin-1 letters, the
    ordinal indicators, the micro sign, the superscript digits and the vulgar
    fractions. *)
Definition is_word (c : ascii) : bool :=
  in_range 48 57 c || in_range 65 90 c || in_range 97 122 c || (code c =? 95)%N
  || (code c =? 170)%N || (code c =? 178)%N || (code c =? 179)%N
  || (code c =? 181)%N || (code c =? 185)%N || (code c =? 186)%N
  || in_range 188 190 c || in_range 192 214 c || in_range 216 246 c
  || in_range 248 255 c.

(** str.lower() on one code point below 256. *)
Definition lower_char (c : ascii) : ascii :=
  if in_range 65 90 c || (in_range 192 222 c && negb (code c =? 215)%N)
  then ascii_of_N (code c + 32)
  else c.

Fixpoint lower (s : string) : string :=
  match s with
  | EmptyString => EmptyString
  | String c t => String (lower_char c) (lower t)
  end.

(** Slices [s[:n]] and [s[n:]]. *)
Fixpoint str_take (n : nat) (s : string) : string :=
  match n, s with
  | S k, String c t => String c (str_take k t)
  | _, _ => EmptyString
  end.

Fixpoint str_drop (n : nat) (s : string) : string :=
  match n, s with
  | S k, String _ t => str_drop k t
  | _, _ => s
  end.

(** The digits of an int() literal after the first one: decimal digits, with
    single underscores allowed between two digits. *)
Fixpoint int_digits (s : string) (acc : Z) : option Z :=
  match s with
  | EmptyString => Some acc
  | String c t =>
      if is_digit c then int_digits t (10 * acc + digit_val c)
      else if Ascii.eqb c "_" then
        match t with
        | String d _ => if is_digit d then int_digits t acc else None
        | EmptyString => None
        end
      else None
  end.

Definition int_body (s : string) : option Z :=
  match s with
  | String c t => if is_digit c then int_digits t (digit_val c) else None
  | EmptyString => None
  end.

(** The literal of int() without the whitespace before and after it. *)
Fixpoint int_lstrip (s : string) : string :=
  match s with
  | String c t => if is_int_space c then int_lstrip t else s
  | EmptyString => EmptyString
  end.

Fixpoint int_rstrip (s : string) : string :=
  match s with
  | EmptyString => EmptyString
  | String c t =>
      match int_rstrip t with
      | EmptyString =>
          if is_int_space c then EmptyString else String c EmptyString
      | t' => String c t'
      end
  end.

(** [s.rstrip()] *)
Fixpoint rstrip (s : string) : string :=
  match s with
  | EmptyString => EmptyString
  | String c t =>
      match rstrip t with
      | EmptyString => if is_space c then EmptyString else String c EmptyString
      | t' => String c t'
      end
  end.

(** int(s) for a str: surrounding whitespace, an optional sign, the digits.
    The bound the interpreter may put on the length of the literal is left
    out. *)
Definition int_of_str (s : string) : option Z :=
  match int_lstrip (int_rstrip s) with
  | String c t =>
      if Ascii.eqb c "-" then option_map Z.opp (int_body t)
      else if Ascii.eqb c "+" then int_body t
      else int_body (String c t)
  | EmptyString => None
  end.

(** str(v) *)
Definition py_str (v : pyval) : string :=
  match v with
  | PyNone => "None"
  | PyInt z => NilZero.string_of_int (Z.to_int z)
  | PyStr s => s
  end.

(** int(v) *)
Definition py_int (v : pyval) : result Z :=
  match v with
  | PyNone => Raise TypeError
  | PyInt z => Ret z
  | PyStr s =>
      match int_of_str s with
      | Some z => Ret z
      | None => Raise ValueError
      end
  end.

(** Truth value of [v] in a condition. *)
Definition truthy (v : pyval) : bool :=
  match v with
  | PyNone => false
  | PyInt z => negb (z =? 0)
  | PyStr s => negb (String.eqb s "")
  end.

(** ** Regular expressions: the fragment of [re] the module's patterns use

    Matching is by backtracking in priority order: [run r st] lists, best
    first, the states in which a match of [r] started at [st] can end.  An
    alternation tries its branches from left to right, a repetition and an
    option are greedy.  [re.search] takes the first success at the leftmost
    start position. *)
Module Re.

Inductive t : Type :=
| Eps                       (* the empty pattern *)
| Chr (p : ascii -> bool)   (* one character of a class *)
| Seq (a b : t)             (* a followed by b *)
| Alt (a b : t)             (* a|b *)
| Opt (a : t)               (* a? *)
| StarChr (p : ascii -> bool) (* c*, for a single character or class c *)
| Group (a : t)             (* (a), capturing group 1 *)
| WordB.                    (* \b *)

(** The matcher's state: the character before the current position, the rest
    of the subject, and the text of group 1 when it has been closed. *)
Record state : Type := State {
  prev : option ascii;
  rest : string;
  grp1 : option string
}.

Definition word_before (st : state) : bool :=
  match prev st with Some c => is_word c | None => false end.

Definition word_after (st : state) : bool :=
  match rest st with String c _ => is_word c | EmptyString => false end.

(** Greedy repetition of a character class: the longest run first. *)
Fixpoint star (p : ascii -> bool) (pv : option ascii) (s : string)
    (g : option string) : list state :=
  match s with
  | String c u =>
      if p c then star p (Some c) u g ++ [State pv s g] else [State pv s g]
  | EmptyString => [State pv s g]
  end.

(** The text between the position of [st] and the later position of [st']. *)
Definition consumed (st st' : state) : string :=
  str_take (String.length (rest st) - String.length (rest st'))%nat (rest st).

Fixpoint run (r : t) (st : state) : list state :=
  match r with
  | Eps => [st]
  | Chr p =>
      match rest st with
      | String c u => if p c then [State (Some c) u (grp1 st)] else []
      | EmptyString => []
      end
  | Seq a b => flat_map (run b) (run a st)
  | Alt a b => run a st ++ run b st
  | Opt a => run a st ++ [st]
  | StarChr p => star p (prev st) (rest st) (grp1 st)
  | Group a =>
      map (fun st' => State (prev st') (rest st') (Some (consumed st st')))
          (run a st)
  | WordB => if xorb (word_before st) (word_after st) then [st] else []
  end.

(** What a match of [r] reads: [spans r w g g'] holds when [r] can match the
    text [w], taking group 1 from [g] to [g'].  It is the specification that
    [run] is sound for; it forgets the priorities and the context that [\b]
    looks at. *)
Fixpoint spans (r : t) (w : string) (g g' : option string) : Prop :=
  match r with
  | Eps => w = EmptyString /\ g' = g
  | Chr p => exists c, w = String c EmptyString /\ p c = true /\ g' = g
  | Seq a b =>
      exists w1 w2 g1, w = w1 +:+ w2 /\ spans a w1 g g1 /\ spans b w2 g1 g'
  | Alt a b => spans a w g g' \/ spans b w g g'
  | Opt a => spans a w g g' \/ (w = EmptyString /\ g' = g)
  | StarChr p => forallb p (list_ascii_of_string w) = true /\ g' = g
  | Group a => exists g1, spans a w g g1 /\ g' = Some w
  | WordB => w = EmptyString /\ g' = g
  end.

(** Patterns without a capturing group. *)
Fixpoint groupless (r : t) : bool :=
  match r with
  | Seq a b | Alt a b => groupless a && groupless b
  | Opt a => groupless a
  | Group _ => false
  | _ => true
  end.

(** A literal string, as the sequence of its characters. *)
Fixpoint lit (s : string) : t :=
  match s with
  | EmptyString => Eps
  | String c u => Seq (Chr (Ascii.eqb c)) (lit u)
  end.

(** One character out of the ones listed, a class such as [[6789]]. *)
Definition one_of (cs : string) : ascii -> bool :=
  fun c => existsb (Ascii.eqb c) (list_ascii_of_string cs).

(** re.search: the first success at the leftmost start position. *)
Fixpoint search_from (r : t) (pv : option ascii) (s : string) : option state :=
  match run r (State pv s None) with
  | m :: _ => Some m
  | [] =>
      match s with
      | String c u => search_from r (Some c) u
      | EmptyString => None
      end
  end.

Definition search (r : t) (s : string) : option state :=
  search_from r None s.

(** m.group(1); [PyNone] when the group did not take part in the match. *)
Definition group1 (m : state) : pyval :=
  match grp1 m with
  | Some g => PyStr g
  | None => PyNone
  end.

End Re.

(** ** The slash-year reconciler *)

Definition digit : ascii -> bool := is_digit.
Definition space : ascii -> bool := Ascii.eqb " ".
Definition separator : ascii -> bool := Re.one_of "-/".

(** [(?:1[6789]\d\d|20[01]\d|2020)] *)
Definition year_regex : Re.t :=
  Re.Alt (Re.Seq (Re.lit "1")
            (Re.Seq (Re.Chr (Re.one_of "6789"))
               (Re.Seq (Re.Chr digit) (Re.Chr digit))))
    (Re.Alt (Re.Seq (Re.lit "20")
               (Re.Seq (Re.Chr (Re.one_of "01")) (Re.Chr digit)))
       (Re.lit "2020")).

(** [(?:1[6789]\d\d|20[01]\d|2020|\d\d)] *)
Definition second_year_regex : Re.t :=
  Re.Alt (Re.Seq (Re.lit "1")
            (Re.Seq (Re.Chr (Re.one_of "6789"))
               (Re.Seq (Re.Chr digit) (Re.Chr digit))))
    (Re.Alt (Re.Seq (Re.lit "20")
               (Re.Seq (Re.Chr (Re.one_of "01")) (Re.Chr digit)))
       (Re.Alt (Re.lit "2020")
          (Re.Seq (Re.Chr digit) (Re.Chr digit)))).

(** [' *[-/] *'] followed by [tail]. *)
Definition slash_then (tail : Re.t) : Re.t :=
  Re.Seq (Re.StarChr space)
    (Re.Seq (Re.Chr separator) (Re.Seq (Re.StarChr space) tail)).

(** [r'({}) *[-/] *(?:{}|{})'.format(year_regex, year, short_year)].  The
    code splices the text of [year] and of [short_year] into the source of
    the pattern, where a metacharacter in it would be read as one (and may
    make re.compile raise).  The embedding takes the two texts as literals:
    this is the pattern of the code for the numeric years ([numeric_year]
    below), whose text is digits only, and the properties of the reconciler
    are stated for those. *)
Definition earlier_pattern (year short_year : string) : Re.t :=
  Re.Seq (Re.Group year_regex)
    (slash_then (Re.Alt (Re.lit year) (Re.lit short_year))).

(** [r'{} *[-/] *((?:{}))\b'.format(year, second_year_regex)], with the
    text of [year] as a literal, as in [earlier_pattern]: the pattern of the
    code for the numeric years. *)
Definition later_pattern (year : string) : Re.t :=
  Re.Seq (Re.lit year)
    (slash_then (Re.Seq (Re.Group second_year_regex) Re.WordB)).

(** The text has a hyphen or a slash. *)
Definition has_separator (s : string) : bool :=
  existsb separator (list_ascii_of_string s).

Definition get_earlier_of_slash_year (year : pyval) (data_segment : string)
    : result pyval :=
  let short_year := str_drop 2 (py_str year) in
  match Re.search (earlier_pattern (py_str year) short_year) data_segment with
  | Some m =>
      let found_year := Re.group1 m in
      f ← py_int found_year;
      y ← py_int year;
      if f <? y then Ret found_year else Ret year
  | None => Ret year
  end.

Definition get_later_of_slash_year (year : pyval) (data_segment : string)
    : result pyval :=
  match Re.search (later_pattern (py_str year)) data_segment with
  | Some m =>
      match Re.group1 m with
      | PyStr g =>
          let found_year :=
            if (String.length g =? 2)%nat
            then str_take 2 (py_str year) +:+ g
            else g in
          f ← py_int (PyStr found_year);
          y ← py_int year;
          if f >? y then Ret (PyStr found_year) else Ret year
      | _ => Raise TypeError (* len() of a value that has none *)
      end
  | None => Ret year
  end.

(** The candidate [get_later_of_slash_year] compares with the year: group 1,
    with the first two characters of the year before it when it has two. *)
Definition expanded (year : pyval) (g : string) : string :=
  if (String.length g =? 2)%nat then str_take 2 (py_str year) +:+ g else g.

Definition double_check_slash_start_year
    (bib_year : pyval) (bib_string : string)
    (holdings_year : pyval) (holdings_string : string) : result bool :=
  bib_year ← get_earlier_of_slash_year bib_year bib_string;
  holdings_year ← get_later_of_slash_year holdings_year holdings_string;
  h ← py_int holdings_year;
  b ← py_int bib_year;
  if h >=? b then Ret true else Ret false.

Definition double_check_slash_end_year
    (bib_year : pyval) (bib_string : string)
    (holdings_year : pyval) (holdings_string : string) : result bool :=
  holdings_year ← get_earlier_of_slash_year holdings_year holdings_string;
  bib_year ← get_later_of_slash_year bib_year bib_string;
  h ← py_int holdings_year;
  b ← py_int bib_year;
  if h <=? b then Ret true else Ret false.

Definition all_digits (s : string) : bool :=
  forallb is_digit (list_ascii_of_string s).

(** The years the reconciler is written for: an int that is not negative, or
    a non-empty string of decimal digits. *)
Definition numeric_year (year : pyval) : bool :=
  match year with
  | PyNone => false
  | PyInt z => 0 <=? z
  | PyStr s => negb (String.eqb s "") && all_digits s
  end.

(** ** The magic-word classifier *)

Definition dot : ascii -> bool := Ascii.eqb ".".

(** [\.?] *)
Definition opt_dot : Re.t := Re.Opt (Re.Chr dot).

Definition search_data : gmap string (list Re.t) :=
  list_to_map
    [ ("completeness",
        [ Re.lit "inc"; Re.lit "compl"; Re.lit "miss"; Re.lit "lack";
          Re.lit "without"; Re.lit "w/o"; Re.lit "repr" ]);
      ("binding",
        [ Re.lit "bound";
          (* bd\.? w *)
          Re.Seq (Re.lit "bd") (Re.Seq opt_dot (Re.lit " w")) ]);
      ("nonprint",
        [ (* d\.?v\.?d\.? *)
          Re.Seq (Re.lit "d") (Re.Seq opt_dot (Re.Seq (Re.lit "v")
            (Re.Seq opt_dot (Re.Seq (Re.lit "d") opt_dot))));
          (* \bc\.?d\.?\b *)
          Re.Seq Re.WordB (Re.Seq (Re.lit "c") (Re.Seq opt_dot
            (Re.Seq (Re.lit "d") (Re.Seq opt_dot Re.WordB)))) ]) ].

(** The inner loop: the first fragment found in [text] ends the scan. *)
Fixpoint scan_fragments (fragments : list Re.t) (text : string) : bool :=
  match fragments with
  | [] => false
  | search_string :: more =>
      match Re.search search_string text with
      | Some _ => true
      | None => scan_fragments more text
      end
  end.

(** The segment is not blank and one of the fragments is found in it. *)
Definition segment_matches (fragments : list Re.t) (segment : pyval) : bool :=
  truthy segment && scan_fragments fragments (lower (py_str segment)).

(** The outer loop over the segments.  [search_data[search_type]] is looked
    up when the inner loop of a segment that is not blank starts. *)
Fixpoint scan_segments (segments : list pyval) (search_type : string)
    : result string :=
  match segments with
  | [] => Ret ""
  | holdings_segment :: more =>
      if negb (truthy holdings_segment) then scan_segments more search_type
      else
        let holdings_segment := py_str holdings_segment in
        match search_data !! search_type with
        | None => Raise KeyError
        | Some fragments =>
            if scan_fragments fragments (lower holdings_segment)
            then Ret "1"
            else scan_segments more search_type
        end
  end.

Definition check_holdings_data_for_magic_words
    (holdings holdings_nonpublic_notes holdings_public_notes : pyval)
    (search_type : string) : result string :=
  let all_holdings_segments_to_check :=
    [holdings; holdings_nonpublic_notes; holdings_public_notes] in
  scan_segments all_holdings_segments_to_check search_type.

(** ** Paths (os.path on a POSIX system) and the unused-filename search *)

(** [s.rfind(c)]: the index of the last [c] in [s]. *)
Fixpoint rfind_from (c : ascii) (s : string) (i : nat) (last : option nat)
    : option nat :=
  match s with
  | EmptyString => last
  | String d t =>
      rfind_from c t (S i) (if Ascii.eqb d c then Some i else last)
  end.

Definition rfind (c : ascii) (s : string) : option nat := rfind_from c s 0 None.

(** [s.rindex(c)] raises ValueError where rfind has nothing to return. *)
Definition rindex (c : ascii) (s : string) : result nat :=
  match rfind c s with
  | Some i => Ret i
  | None => Raise ValueError
  end.

Definition all_slashes (s : string) : bool :=
  forallb (Ascii.eqb "/") (list_ascii_of_string s).

(** [s.rstrip('/')] *)
Fixpoint rstrip_slash (s : string) : string :=
  match s with
  | EmptyString => EmptyString
  | String c t =>
      match rstrip_slash t with
      | EmptyString => if Ascii.eqb c "/" then EmptyString else String c EmptyString
      | t' => String c t'
      end
  end.

(** os.path.split: the head keeps its slashes only when it is made of them. *)
Definition os_path_split (p : string) : string * string :=
  let i := match rfind "/" p with Some k => S k | None => O end in
  let head := str_take i p in
  let tail := str_drop i p in
  let head := if all_slashes head then head else rstrip_slash head in
  (head, tail).

Definition ends_with_slash (s : string) : bool :=
  match rfind "/" s with
  | Some k => (S k =? String.length s)%nat
  | None => false
  end.

(** os.path.join of two components. *)
Definition os_path_join (a b : string) : string :=
  match b with
  | String "/" _ => b
  | _ =>
      if String.eqb a "" || ends_with_slash a then a +:+ b
      else a +:+ "/" +:+ b
  end.

(** ['{}({}){}'.format(base_filename, new_file_number, file_extension)] *)
Definition numbered (base_filename : string) (new_file_number : Z)
    (file_extension : string) : string :=
  base_filename +:+ "(" +:+ py_str (PyInt new_file_number) +:+ ")"
    +:+ file_extension.

Definition runaway (full_filename : string) : exn :=
  Exception ("At least 1000 files with the base name " +:+ full_filename
             +:+ ". Runaway process?").

Section FileSystem.

(** os.path.isfile at the time of the call. *)
Variable isfile : string -> bool.

(** The [while True] loop, one unfolding per turn; [None] when the turns
    allowed by [fuel] are used up before the loop is left. *)
Fixpoint unused_loop (fuel : nat) (path_base base_filename file_extension
    full_filename : string) (new_file_number : Z) : option (result string) :=
  match fuel with
  | O => None
  | S fuel' =>
      let new_file_number := new_file_number + 1 in
      let new_filename := numbered base_filename new_file_number file_extension in
      let new_file_location := os_path_join path_base new_filename in
      if negb (isfile new_file_location) then Some (Ret new_file_location)
      else if new_file_number >=? 999 then Some (Raise (runaway full_filename))
      else unused_loop fuel' path_base base_filename file_extension
             full_filename new_file_number
  end.

Definition get_unused_filename (fuel : nat) (file_location : string)
    : option (result string) :=
  if negb (isfile file_location) then Some (Ret file_location)
  else
    let new_file_number := 0 in
    let '(path_base, full_filename) := os_path_split file_location in
    match rindex "." full_filename with
    | Raise e => Some (Raise e)
    | Ret i =>
        let base_filename := str_take i full_filename in
        let file_extension := str_drop i full_filename in
        unused_loop fuel path_base base_filename file_extension full_filename
          new_file_number
    end.

End FileSystem.

(** The candidate tried at turn [n] of the loop for [file_location]. *)
Definition candidate (file_location : string) (n : Z) : string :=
  let '(path_base, full_filename) := os_path_split file_location in
  match rfind "." full_filename with
  | Some i =>
      os_path_join path_base
        (numbered (str_take i full_filename) n (str_drop i full_filename))
  | None => file_location
  end.

(** The final component of [file_location] has a period to split it at. *)
Definition has_extension (file_location : string) : bool :=
  match rfind "." (snd (os_path_split file_location)) with
  | Some _ => true
  | None => false
  end.

(** ** The fields and issues finder *)

Abbreviation FieldSet := (list string).
Abbreviation IssueFlags := (gmap string bool).

(** One institution of the bulk configuration: its entries 'input_fields'
    and 'disqualifying_issues'. *)
Record BulkEntry : Type := {
  bulk_input_fields : FieldSet;
  bulk_disqualifying_issues : IssueFlags
}.

(** Modelled from the spec: the class BulkConfig of
    validator_lib/bulk_validator_preferences.py is not among the sources; the
    finder reads its two attributes, the per-institution store and the table
    of associated names. *)
Record BulkConfig : Type := {
  bulk_config_data : gmap string BulkEntry;
  associated_names_map : gmap string string
}.

(** Modelled from the spec: the class ValidatorConfig of
    validator_lib/validator_config.py is not among the sources; the finder
    reads the per-file fields through get_input_fields, the entry
    'disqualifying_issues' of its config dict (absent when the key is
    missing) and the built-in defaults. *)
Record ValidatorConfig : Type := {
  per_file_fields : gmap string FieldSet;
  config_disqualifying_issues : option IssueFlags;
  default_disqualifying_issues : IssueFlags
}.

(** Modelled from the spec: ValidatorConfig.get_input_fields looks the
    filename up in the per-file override store. *)
Definition get_input_fields (vc : ValidatorConfig) (filename : string)
    : option FieldSet :=
  per_file_fields vc !! filename.

Record FieldsAndIssuesFinder : Type := {
  validator_config : ValidatorConfig;
  bulk_config : BulkConfig;
  use_validator_config : bool
}.

Definition set_use_validator_config (self : FieldsAndIssuesFinder) (b : bool)
    : FieldsAndIssuesFinder :=
  {| validator_config := validator_config self;
     bulk_config := bulk_config self;
     use_validator_config := b |}.

(** [__init__] over the two configurations as loaded. *)
Definition new_finder (vc : ValidatorConfig) (bc : BulkConfig)
    : FieldsAndIssuesFinder :=
  {| validator_config := vc; bulk_config := bc; use_validator_config := false |}.

(** [s.split('.')[0]] *)
Fixpoint before_first_dot (s : string) : string :=
  match s with
  | EmptyString => EmptyString
  | String c t => if Ascii.eqb c "." then EmptyString else String c (before_first_dot t)
  end.

Definition get_institution_name_from_filename (filename : string) : string :=
  let file_proper := snd (os_path_split filename) in
  lower (before_first_dot file_proper).

(** Truth value of what get_input_fields returned. *)
Definition fields_truthy (input_fields : option FieldSet) : bool :=
  match input_fields with
  | Some (_ :: _) => true
  | _ => false
  end.

(** Returns the fields ([None] where the method falls off its end) and the
    finder with its flag as the call left it. *)
Definition get_fields_for_individual_file (self : FieldsAndIssuesFinder)
    (filename : string) : result (option FieldSet) * FieldsAndIssuesFinder :=
  let input_fields := get_input_fields (validator_config self) filename in
  if fields_truthy input_fields
  then (Ret input_fields, set_use_validator_config self true)
  else
    let self := set_use_validator_config self false in
    let inst_name := get_institution_name_from_filename filename in
    let bulk := bulk_config_data (bulk_config self) in
    match bulk !! inst_name with
    | Some entry => (Ret (Some (bulk_input_fields entry)), self)
    | None =>
        match associated_names_map (bulk_config self) !! inst_name with
        | Some program_name =>
            match bulk !! program_name with
            | Some entry => (Ret (Some (bulk_input_fields entry)), self)
            | None => (Raise KeyError, self)
            end
        | None => (Ret None, self)
        end
    end.

Inductive level : Type := INFO | WARNING.

Definition log_record : Type := level * string.

Definition using_issues_of (name : string) : log_record :=
  (INFO, "Using disqualifying issues set for " +:+ name).

Definition using_defaults : log_record :=
  (WARNING, "No disqualifying issues set. Using defaults.").

(** [if filename:] on the optional argument. *)
Definition filename_given (filename : option string) : option string :=
  match filename with
  | Some (String c t) => Some (String c t)
  | _ => None
  end.

(** The end of the method: the global configuration, then the defaults. *)
Definition global_or_default_issues (vc : ValidatorConfig)
    : result IssueFlags * list log_record :=
  match config_disqualifying_issues vc with
  | Some issues =>
      if negb (bool_decide (issues = ∅)) then (Ret issues, [])
      else (Ret (default_disqualifying_issues vc), [using_defaults])
  | None => (Ret (default_disqualifying_issues vc), [using_defaults])
  end.

(** Returns the issues and the records logged by the call. *)
Definition get_issues_for_individual_file (self : FieldsAndIssuesFinder)
    (filename : option string) : result IssueFlags * list log_record :=
  let bulk := bulk_config_data (bulk_config self) in
  match filename_given filename with
  | Some filename =>
      let inst_name := get_institution_name_from_filename filename in
      match bulk !! inst_name, negb (use_validator_config self) with
      | Some entry, true =>
          (Ret (bulk_disqualifying_issues entry), [using_issues_of inst_name])
      | _, _ =>
          match associated_names_map (bulk_config self) !! inst_name with
          | Some program_name =>
              match bulk !! program_name with
              | Some entry =>
                  (Ret (bulk_disqualifying_issues entry), [using_issues_of program_name])
              | None => (Raise KeyError, [using_issues_of program_name])
              end
          | None => global_or_default_issues (validator_config self)
          end
      end
  | None => global_or_default_issues (validator_config self)
  end.

(** Every associated name leads to an institution of the bulk store, as the
    data model has it. *)
Definition aliases_resolve (bc : BulkConfig) : bool :=
  bool_decide
    (map_Forall
       (fun _ program_name => is_Some (bulk_config_data bc !! program_name))
       (associated_names_map bc)).

(** *** A configuration for the examples

    The file "abc.tsv" has fields of its own in the validator configuration;
    "abc" is an associated name of the program "consortium" of the bulk
    configuration. *)
Definition global_issues : IssueFlags :=
  {[ "holdings_out_of_range" := true ]}.

Definition builtin_issues : IssueFlags :=
  {[ "binding_words_in_holdings" := false; "bib_lvl_not_serial" := true ]}.

Definition consortium_issues : IssueFlags :=
  {[ "no_oclc_number" := true ]}.

Definition example_validator_config : ValidatorConfig :=
  {| per_file_fields := {[ "abc.tsv" := ["001"; "866"] ]};
     config_disqualifying_issues := Some global_issues;
     default_disqualifying_issues := builtin_issues |}.

Definition example_bulk_config : BulkConfig :=
  {| bulk_config_data :=
       {[ "consortium" := {| bulk_input_fields := ["004"; "035"];
                             bulk_disqualifying_issues := consortium_issues |} ]};
     associated_names_map := {[ "abc" := "consortium" ]} |}.

(** A validator configuration without issues of its own, and a bulk
    configuration without institutions. *)
Definition bare_validator_config : ValidatorConfig :=
  {| per_file_fields := ∅;
     config_disqualifying_issues := None;
     default_disqualifying_issues := builtin_issues |}.

Definition empty_bulk_config : BulkConfig :=
  {| bulk_config_data := ∅; associated_names_map := ∅ |}.

(** A bulk configuration whose associated name leads nowhere. *)
Definition dangling_bulk_config : BulkConfig :=
  {| bulk_config_data := ∅; associated_names_map := {[ "abc" := "ghost" ]} |}.

(** The file system of the example: "x.txt" and "x(1).txt" exist. *)
Definition two_files (p : string) : bool :=
  String.eqb p "x.txt" || String.eqb p "x(1).txt".

(** ** Further string methods *)

(** [s.startswith(p)] *)
Fixpoint starts_with (p s : string) : bool :=
  match p, s with
  | EmptyString, _ => true
  | String a p', String b s' => Ascii.eqb a b && starts_with p' s'
  | String _ _, EmptyString => false
  end.

(** [p in s] *)
Fixpoint contains (p s : string) : bool :=
  starts_with p s
  || match s with
     | String _ t => contains p t
     | EmptyString => false
     end.

(** [s.endswith(p)] *)
Definition ends_with (p s : string) : bool :=
  (String.length p <=? String.length s)%nat
  && String.eqb (str_drop (String.length s - String.length p) s) p.

(** [s.replace(old, new)] for an [old] that is not empty, as it is in every
    call of the module: the occurrences are taken from the left and do not
    overlap.  [skip] counts the characters of the occurrence just replaced
    that are still to be passed over. *)
Fixpoint replace_from (skip : nat) (old new s : string) : string :=
  match s with
  | EmptyString => EmptyString
  | String c t =>
      match skip with
      | S k => replace_from k old new t
      | O =>
          if starts_with old s
          then new +:+ replace_from (String.length old - 1) old new t
          else String c (replace_from 0 old new t)
      end
  end.

Definition replace (old new s : string) : string := replace_from 0 old new s.

(** [s.split(c)[0]] for a separator of one character. *)
Fixpoint before_first (c : ascii) (s : string) : string :=
  match s with
  | EmptyString => EmptyString
  | String d t => if Ascii.eqb d c then EmptyString else String d (before_first c t)
  end.

(** One character of a str that is all digits for str.isdigit(): below 256,
    the decimal digits and the superscripts one, two and three. *)
Definition is_py_digit (c : ascii) : bool :=
  is_digit c || (code c =? 178)%N || (code c =? 179)%N || (code c =? 185)%N.

(** [s.isdigit()] *)
Definition isdigit (s : string) : bool :=
  negb (String.eqb s "") && forallb is_py_digit (list_ascii_of_string s).

Fixpoint zeros (n : nat) : string :=
  match n with
  | O => EmptyString
  | S k => String "0" (zeros k)
  end.

(** [s.zfill(width)]: zeros on the left, after the sign when there is one. *)
Definition zfill (width : nat) (s : string) : string :=
  match (width - String.length s)%nat with
  | O => s
  | fill =>
      match s with
      | String c t =>
          if Ascii.eqb c "+" || Ascii.eqb c "-"
          then String c (zeros fill +:+ t)
          else zeros fill +:+ s
      | EmptyString => zeros fill
      end
  end.

(** ** The abbreviation of an input file and the field numbers *)

Definition autogenerated_suffix : string := "_AUTOGENERATED_FILE.tsv".

Definition get_abbrev_from_input_filename (input_file : string) : string :=
  if contains autogenerated_suffix input_file
  then replace autogenerated_suffix "" input_file
  else
    let working_filename := replace "DATA." "" input_file in
    let working_filename := replace "." "_" working_filename in
    let working_filename := replace " " "_" working_filename in
    before_first "_" working_filename.

Definition left_pad_field_number (field_number : pyval) : string :=
  if negb (truthy field_number) then ""
  else
    let field_number := py_str field_number in
    if negb (isdigit field_number) then field_number
    else zfill 3 field_number.

(** ** The categories of the issues that disqualify *)

(** The loop over the issues: the names whose flag is set. *)
Definition active_categories (disqualifying_issues : IssueFlags) : gset string :=
  map_fold
    (fun issue flag categories =>
       if flag : bool then {[ issue ]} ∪ categories else categories)
    ∅ disqualifying_issues.

(** The finder is made anew by the call, over the two configurations as
    loaded. *)
Definition get_disqualifying_issue_categories (vc : ValidatorConfig)
    (bc : BulkConfig) (input_file : option string)
    : result (gset string) * list log_record :=
  let fields_and_issues_finder := new_finder vc bc in
  let '(disqualifying_issues, logged) :=
    get_issues_for_individual_file fields_and_issues_finder input_file in
  (issues ← disqualifying_issues; Ret (active_categories issues), logged).

(** A year of four digits, as an int or as a str. *)
Definition four_digit_year (year : pyval) : bool :=
  match year with
  | PyNone => false
  | PyInt z => (1000 <=? z) && (z <=? 9999)
  | PyStr s => (String.length s =? 4)%nat && all_digits s
  end.

(** The text is made of ASCII characters, code points below 128. *)
Definition is_ascii_text (s : string) : bool :=
  forallb (fun c => (code c <? 128)%N) (list_ascii_of_string s).

(** No character of [cs] occurs in [s]. *)
Definition free_of (cs s : string) : bool :=
  forallb (fun c => negb (Re.one_of cs c)) (list_ascii_of_string s).

(** ** scan_input_files.py: the quick scan of a MARC file *)

Module Scan.

(** What a scan leaves behind: records of the log and lines printed. *)
Inductive event : Type :=
| LogInfo (msg : string)
| LogWarning (msg : string)
| Printed (msg : string).

(** A collections.Counter: a key that is missing counts 0. *)
Definition count (file_data : gmap string nat) (key : string) : nat :=
  default 0%nat (file_data !! key).

(** [file_data[key] += 1] *)
Definition incr (key : string) (file_data : gmap string nat)
    : gmap string nat :=
  <[ key := S (count file_data key) ]> file_data.

(** [s.ljust(width)] and [s.rjust(width)] *)
Fixpoint spaces (n : nat) : string :=
  match n with
  | O => EmptyString
  | S k => String " " (spaces k)
  end.

Definition ljust (width : nat) (s : string) : string :=
  s +:+ spaces (width - String.length s).

Definition rjust (width : nat) (s : string) : string :=
  spaces (width - String.length s) +:+ s.

Definition cats : list string :=
  [ "Total records"; "Have 001 field"; "Have 004 field"; "Have 035";
    "OCLC in 035"; "Have 863/864/865"; "Have 866/867/868" ].

Section Scanner.

(** os.getcwd() when the scanner is made. *)
Variable cwd : string.
(** The records that MarcFileReader yields for the file at a path. *)
Variable marc_records : string -> list string.
(** The truth value of MarcFields(marc).oclc_035. *)
Variable oclc_035 : string -> bool.
(** ["{:.1%}".format(a / b)], the share of [a] in [b] as a percentage. *)
Variable percent : nat -> nat -> string.

Definition input_dir : string := os_path_join cwd "input".

Definition has_one_of_863 (marc : string) : bool :=
  contains "=863  " marc || contains "=864  " marc || contains "=865  " marc.

Definition has_one_of_866 (marc : string) : bool :=
  contains "=866  " marc || contains "=867  " marc || contains "=868  " marc.

(** One turn of the loop over the records. *)
Definition count_record (file_data : gmap string nat) (marc : string)
    : gmap string nat :=
  let file_data := incr "Total records" file_data in
  let file_data :=
    if contains "=001  " marc then incr "Have 001 field" file_data
    else file_data in
  let file_data :=
    if contains "004  " marc then incr "Have 004 field" file_data
    else file_data in
  let file_data :=
    if oclc_035 marc then incr "OCLC in 035" (incr "Have 035" file_data)
    else if contains "=035  " marc then incr "Have 035" file_data
    else file_data in
  let file_data :=
    if has_one_of_863 marc then incr "Have 863/864/865" file_data
    else file_data in
  let file_data :=
    if has_one_of_866 marc then incr "Have 866/867/868" file_data
    else file_data in
  file_data.

Definition report_line (file_data : gmap string nat) (cat : string) : string :=
  ljust 16 cat
  +:+ rjust 5 (py_str (PyInt (Z.of_nat (count file_data cat))))
  +:+ String "009" ""
  +:+ rjust 7 (percent (count file_data cat) (count file_data "Total records")).

(** Returns the counter ([None] for a file without records) and what was
    logged and printed. *)
Definition marc_scanner (input_file : string)
    : option (gmap string nat) * list event :=
  let input_file_loc := os_path_join input_dir input_file in
  let file_data := fold_left count_record (marc_records input_file_loc) ∅ in
  if (count file_data "Total records" =? 0)%nat
  then (None,
        [LogWarning ("No records found in " +:+ input_file
                     +:+ ". Blank file?")])
  else
    (Some file_data,
     LogInfo ("Quick scan of file " +:+ input_file)
     :: Printed (String "010" "Quick scan of file " +:+ input_file)
     :: flat_map
          (fun cat =>
             let output_string := report_line file_data cat in
             [LogInfo output_string; Printed output_string])
          cats).

(** What a record must show to be counted in a category. *)
Definition category_tests : list (string * (string -> bool)) :=
  [ ("Total records", fun _ => true);
    ("Have 001 field", contains "=001  ");
    ("Have 004 field", contains "004  ");
    ("Have 035", fun marc => oclc_035 marc || contains "=035  " marc);
    ("OCLC in 035", oclc_035);
    ("Have 863/864/865", has_one_of_863);
    ("Have 866/867/868", has_one_of_866) ].

End Scanner.

End Scan.

(** ** The ISSNs of the JSTOR lists *)

Section Jstor.

(** os.listdir(validator_data_folder) *)
Variable listdir : string -> list string.
(** The lines of the file at a path, as the two attempts to read it (utf8,
    then ascii) yield them together, or the exception that leaves the
    function when the file cannot be read. *)
Variable read_lines : string -> result (list string).

(** The tests a line passes, once stripped, to be added. *)
Definition accepted_issn (issn : string) : bool :=
  negb (String.eqb issn "") && contains "-" issn
  && negb (contains "issn" (lower issn)).

(** The loop over the lines of one file. *)
Fixpoint add_issns (raw_issns : list string) (jstor : gset string)
    : gset string :=
  match raw_issns with
  | [] => jstor
  | issn :: more =>
      if String.eqb issn "" || negb (contains "-" issn)
      then add_issns more jstor
      else if contains "issn" (lower issn) then add_issns more jstor
      else add_issns more ({[ issn ]} ∪ jstor)
  end.

(** The files that are read: named jstor..., not ...xlsx, in any case. *)
Definition is_jstor_list (data_file : string) : bool :=
  starts_with "jstor" (lower data_file)
  && negb (ends_with "xlsx" (lower data_file)).

(** The loop over the files of the folder. *)
Fixpoint read_jstor_files (validator_data_folder : string)
    (data_files : list string) (jstor : gset string) : result (gset string) :=
  match data_files with
  | [] => Ret jstor
  | data_file :: more =>
      if negb (starts_with "jstor" (lower data_file))
      then read_jstor_files validator_data_folder more jstor
      else if ends_with "xlsx" (lower data_file)
      then read_jstor_files validator_data_folder more jstor
      else
        let jstor_file := os_path_join validator_data_folder data_file in
        lines ← read_lines jstor_file;
        let raw_issns := map rstrip lines in
        read_jstor_files validator_data_folder more (add_issns raw_issns jstor)
  end.

Definition get_jstor_issns (validator_data_folder : string)
    : result (gset string) :=
  let jstor := ∅ in
  let data_files := listdir validator_data_folder in
  read_jstor_files validator_data_folder data_files jstor.

End Jstor.

(** The ISSN comes from a line of a JSTOR list among [data_files]. *)
Definition from_jstor_list (read_lines : string -> result (list string))
    (validator_data_folder : string) (data_files : list string)
    (issn : string) : Prop :=
  exists data_file lines line,
    In data_file data_files
    /\ is_jstor_list data_file = true
    /\ read_lines (os_path_join validator_data_folder data_file) = Ret lines
    /\ In line lines
    /\ rstrip line = issn
    /\ accepted_issn issn = true.

(* ===================================================================== *)
(** * Properties *)
(* ===================================================================== *)

(** ** Strings *)

Lemma append_nil (s : string) : "" +:+ s = s.
Proof. reflexivity. Qed.

Lemma append_cons (c : ascii) (s u : string) :
  String c s +:+ u = String c (s +:+ u).
Proof. reflexivity. Qed.

Lemma append_empty_r (s : string) : s +:+ "" = s.
Proof.
  induction s as [|c s IH]; [reflexivity |]. now rewrite append_cons, IH.
Qed.

Lemma append_assoc (a b c : string) : (a +:+ b) +:+ c = a +:+ (b +:+ c).
Proof.
  induction a as [|x a IH]; [reflexivity |]. now rewrite !append_cons, IH.
Qed.

Lemma length_append (a b : string) :
  String.length (a +:+ b) = (String.length a + String.length b)%nat.
Proof.
  induction a as [|x a IH]; [reflexivity |].
  rewrite append_cons. simpl. now rewrite IH.
Qed.

Lemma str_take_append (w r : string) : str_take (String.length w) (w +:+ r) = w.
Proof.
  induction w as [|c w IH]; [now destruct r |].
  rewrite append_cons. simpl. now rewrite IH.
Qed.

Lemma all_digits_cons (c : ascii) (s : string) :
  all_digits (String c s) = is_digit c && all_digits s.
Proof. reflexivity. Qed.

Lemma all_digits_append (a b : string) :
  all_digits (a +:+ b) = all_digits a && all_digits b.
Proof.
  induction a as [|c a IH]; [reflexivity |].
  rewrite append_cons, !all_digits_cons, IH. now rewrite andb_assoc.
Qed.

Lemma all_digits_take (n : nat) (s : string) :
  all_digits s = true -> all_digits (str_take n s) = true.
Proof.
  revert s. induction n as [|n IH]; intros [|c s]; try reflexivity.
  simpl str_take. rewrite !all_digits_cons. intros [Hc Hs]%andb_prop.
  now rewrite Hc, IH.
Qed.

(** ** The matcher is sound for [spans] *)

Module ReFacts.
Import Re.

Lemma consumed_append (pv pv' : option ascii) (g g' : option string)
    (w r : string) :
  consumed (State pv (w +:+ r) g) (State pv' r g') = w.
Proof.
  unfold consumed. simpl. rewrite length_append.
  replace (String.length w + String.length r - String.length r)%nat
    with (String.length w) by lia.
  apply str_take_append.
Qed.

Lemma star_sound (p : ascii -> bool) (s : string) :
  forall pv g st', In st' (star p pv s g) ->
    exists w, s = w +:+ rest st'
              /\ forallb p (list_ascii_of_string w) = true /\ grp1 st' = g.
Proof.
  induction s as [|c u IH]; intros pv g st' Hin; simpl in Hin.
  - destruct Hin as [<- | []]. exists "". auto.
  - destruct (p c) eqn:Hp.
    + apply in_app_or in Hin. destruct Hin as [Hin | [<- | []]].
      * destruct (IH _ _ _ Hin) as (w & -> & Hw & Hg).
        exists (String c w). rewrite append_cons. simpl. rewrite Hp, Hw. auto.
      * exists "". auto.
    + destruct Hin as [<- | []]. exists "". auto.
Qed.

Lemma run_sound (r : t) :
  forall st st', In st' (run r st) ->
    exists w, rest st = w +:+ rest st' /\ spans r w (grp1 st) (grp1 st').
Proof.
  induction r as [| p | a IHa b IHb | a IHa b IHb | a IHa | p | a IHa |];
    intros st st' Hin; simpl in Hin.
  - destruct Hin as [<- | []]. exists "". simpl. auto.
  - destruct (rest st) as [|c u] eqn:Hrest; [destruct Hin |].
    destruct (p c) eqn:Hp; [| destruct Hin].
    destruct Hin as [<- | []]. exists (String c ""). simpl. eauto.
  - apply in_flat_map in Hin. destruct Hin as (mid & Hmid & Hin).
    destruct (IHa _ _ Hmid) as (w1 & E1 & S1).
    destruct (IHb _ _ Hin) as (w2 & E2 & S2).
    exists (w1 +:+ w2). split.
    + rewrite E1, E2. now rewrite append_assoc.
    + simpl. eauto 6.
  - apply in_app_or in Hin. destruct Hin as [Hin | Hin].
    + destruct (IHa _ _ Hin) as (w & E & Sp). exists w. simpl. auto.
    + destruct (IHb _ _ Hin) as (w & E & Sp). exists w. simpl. auto.
  - apply in_app_or in Hin. destruct Hin as [Hin | [<- | []]].
    + destruct (IHa _ _ Hin) as (w & E & Sp). exists w. simpl. auto.
    + exists "". simpl. auto.
  - destruct (star_sound _ _ _ _ _ Hin) as (w & E & Hw & Hg).
    exists w. simpl. auto.
  - apply in_map_iff in Hin. destruct Hin as (x & <- & Hx).
    destruct (IHa _ _ Hx) as (w & E & Sp). exists w. simpl. split; [exact E |].
    exists (grp1 x). split; [exact Sp |]. f_equal.
    destruct st as [pv s g], x as [pv' s' g']. simpl in E. subst s.
    apply consumed_append.
  - destruct (xorb _ _); [| destruct Hin].
    destruct Hin as [<- | []]. exists "". simpl. auto.
Qed.

(** A success of [search] is a success of [run] at some start position of
    the subject, with no group recorded before the match. *)
Lemma search_from_sound (r : t) (s : string) :
  forall pv m, search_from r pv s = Some m ->
    exists pv' before s',
      s = before +:+ s' /\ In m (run r (State pv' s' None)).
Proof.
  induction s as [|c u IH]; intros pv m H; simpl in H.
  - destruct (run r (State pv "" None)) as [|x l] eqn:E; [discriminate |].
    injection H as <-. exists pv, "", "". rewrite E. split; [easy | now left].
  - destruct (run r (State pv (String c u) None)) as [|x l] eqn:E.
    + destruct (IH _ _ H) as (pv' & before & s' & -> & Hin).
      exists pv', (String c before), s'. split; [reflexivity | exact Hin].
    + injection H as <-. exists pv, "", (String c u). rewrite E.
      split; [reflexivity | now left].
Qed.

(** The text read by the match found by [search], in its place. *)
Lemma search_spans_in (r : t) (s : string) (m : state) :
  search r s = Some m ->
  exists before w, s = before +:+ w +:+ rest m /\ spans r w None (grp1 m).
Proof.
  intros H. apply search_from_sound in H.
  destruct H as (pv & before & s' & -> & Hin).
  apply run_sound in Hin. destruct Hin as (w & E & Sp). simpl in E.
  exists before, w. now rewrite <- E.
Qed.

Lemma search_spans (r : t) (s : string) (m : state) :
  search r s = Some m -> exists w, spans r w None (grp1 m).
Proof.
  intros H. apply search_spans_in in H. destruct H as (_ & w & _ & Sp).
  now exists w.
Qed.

Lemma groupless_spans (r : t) :
  groupless r = true -> forall w g g', spans r w g g' -> g' = g.
Proof.
  induction r as [| p | a IHa b IHb | a IHa b IHb | a IHa | p | a IHa |];
    simpl; intros Hg w g g' Sp.
  - tauto.
  - destruct Sp as (c & _ & _ & E). exact E.
  - apply andb_prop in Hg. destruct Hg as [Ha Hb].
    destruct Sp as (w1 & w2 & g1 & _ & S1 & S2).
    rewrite (IHb Hb _ _ _ S2). eapply IHa; eauto.
  - apply andb_prop in Hg. destruct Hg as [Ha Hb].
    destruct Sp as [Sp | Sp]; [eapply IHa | eapply IHb]; eauto.
  - destruct Sp as [Sp | [_ E]]; [eapply IHa; eauto | exact E].
  - tauto.
  - discriminate.
  - tauto.
Qed.

Lemma groupless_lit (s : string) : groupless (lit s) = true.
Proof. induction s; simpl; auto. Qed.

End ReFacts.

(** ** What the two year patterns capture *)

Lemma one_of_digits (c : ascii) :
  Re.one_of "0123456789" c = true -> is_digit c = true.
Proof.
  unfold Re.one_of. simpl. rewrite !orb_true_iff.
  intros H. repeat destruct H as [H | H]; try discriminate;
    apply Ascii.eqb_eq in H; subst; reflexivity.
Qed.

Lemma one_of_6789 (c : ascii) : Re.one_of "6789" c = true -> is_digit c = true.
Proof.
  intros H. apply one_of_digits. revert H. unfold Re.one_of. simpl.
  rewrite !orb_true_iff. tauto.
Qed.

Lemma one_of_01 (c : ascii) : Re.one_of "01" c = true -> is_digit c = true.
Proof.
  intros H. apply one_of_digits. revert H. unfold Re.one_of. simpl.
  rewrite !orb_true_iff. tauto.
Qed.

(** Takes a hypothesis on [spans] of a pattern without variables apart. *)
Ltac crack_spans :=
  repeat match goal with
    | H : _ /\ _ |- _ => destruct H
    | H : _ \/ _ |- _ => destruct H
    | H : exists _, _ |- _ => destruct H
    | H : Ascii.eqb _ _ = true |- _ => apply Ascii.eqb_eq in H
    | H : Re.one_of "6789" _ = true |- _ => apply one_of_6789 in H
    | H : Re.one_of "01" _ = true |- _ => apply one_of_01 in H
    end;
  subst; cbv [String.append].

Lemma four_digits (a b c d : ascii) :
  is_digit a = true -> is_digit b = true -> is_digit c = true ->
  is_digit d = true ->
  String.length (String a (String b (String c (String d "")))) = 4%nat
  /\ all_digits (String a (String b (String c (String d "")))) = true.
Proof.
  intros Ha Hb Hc Hd. split; [reflexivity |].
  rewrite !all_digits_cons, Ha, Hb, Hc, Hd. reflexivity.
Qed.

Lemma two_digits (a b : ascii) :
  is_digit a = true -> is_digit b = true ->
  String.length (String a (String b "")) = 2%nat
  /\ all_digits (String a (String b "")) = true.
Proof.
  intros Ha Hb. split; [reflexivity |].
  rewrite !all_digits_cons, Ha, Hb. reflexivity.
Qed.

Lemma year_regex_spans (w : string) (g g' : option string) :
  Re.spans year_regex w g g' ->
  String.length w = 4%nat /\ all_digits w = true.
Proof.
  unfold year_regex, digit. cbn [Re.spans Re.lit]. intros H.
  crack_spans; apply four_digits; auto.
Qed.

Lemma second_year_regex_spans (w : string) (g g' : option string) :
  Re.spans second_year_regex w g g' ->
  (String.length w = 2%nat \/ String.length w = 4%nat) /\ all_digits w = true.
Proof.
  unfold second_year_regex, digit. cbn [Re.spans Re.lit]. intros H.
  crack_spans;
    (split;
     [ first [left; reflexivity | right; reflexivity]
     | first [apply four_digits | apply two_digits]; auto ]).
Qed.

(** Group 1 of a match of the [earlier] pattern is a year of four digits. *)
Lemma earlier_group (year short_year text : string) (m : Re.state) :
  Re.search (earlier_pattern year short_year) text = Some m ->
  exists g, Re.grp1 m = Some g
            /\ String.length g = 4%nat /\ all_digits g = true.
Proof.
  intros H. apply ReFacts.search_spans in H. destruct H as (w & Sp).
  unfold earlier_pattern, slash_then in Sp. cbn [Re.spans] in Sp.
  destruct Sp as (w1 & w2 & g1 & _ & (g0 & Sy & ->) & Sp).
  destruct Sp as (w3 & w4 & g2 & _ & [_ ->] & Sp).
  destruct Sp as (w5 & w6 & g3 & _ & (c & _ & _ & ->) & Sp).
  destruct Sp as (w7 & w8 & g4 & _ & [_ ->] & Sp).
  assert (E : Re.grp1 m = Some w1).
  { destruct Sp as [Sp | Sp];
      eapply ReFacts.groupless_spans in Sp; eauto using ReFacts.groupless_lit. }
  exists w1. split; [exact E |]. eapply year_regex_spans; eauto.
Qed.

(** Group 1 of a match of the [later] pattern has two or four digits. *)
Lemma later_group (year text : string) (m : Re.state) :
  Re.search (later_pattern year) text = Some m ->
  exists g, Re.grp1 m = Some g
            /\ (String.length g = 2%nat \/ String.length g = 4%nat)
            /\ all_digits g = true.
Proof.
  intros H. apply ReFacts.search_spans in H. destruct H as (w & Sp).
  unfold later_pattern, slash_then in Sp. cbn [Re.spans] in Sp.
  destruct Sp as (w1 & w2 & g1 & _ & Sl & Sp).
  destruct Sp as (w3 & w4 & g2 & _ & [_ ->] & Sp).
  destruct Sp as (w5 & w6 & g3 & _ & (c & _ & _ & ->) & Sp).
  destruct Sp as (w7 & w8 & g4 & _ & [_ ->] & Sp).
  destruct Sp as (w9 & w10 & g5 & _ & (g0 & Sy & ->) & [_ ->]).
  exists w9. split; [reflexivity |]. eapply second_year_regex_spans; eauto.
Qed.

(** ** int() and str() on years *)

Lemma digit_facts (c : ascii) :
  is_digit c = true ->
  is_int_space c = false /\ Ascii.eqb c "-" = false
  /\ Ascii.eqb c "+" = false /\ 0 <= digit_val c <= 9.
Proof.
  destruct c as [[] [] [] [] [] [] [] []]; vm_compute;
    intros H; try discriminate H; repeat split; congruence.
Qed.

Lemma int_digits_total (s : string) :
  all_digits s = true ->
  forall acc, 0 <= acc -> exists z, int_digits s acc = Some z /\ 0 <= z.
Proof.
  induction s as [|c s IH]; intros Hd acc Hacc.
  - exists acc. auto.
  - rewrite all_digits_cons in Hd. apply andb_prop in Hd as [Hc Hs].
    simpl. rewrite Hc. apply IH; [exact Hs |].
    destruct (digit_facts c Hc) as (_ & _ & _ & Hv). lia.
Qed.

Lemma rstrip_digits (s : string) : all_digits s = true -> int_rstrip s = s.
Proof.
  induction s as [|c s IH]; [reflexivity |].
  rewrite all_digits_cons. intros [Hc Hs]%andb_prop.
  simpl. rewrite (IH Hs). destruct (digit_facts c Hc) as (-> & _).
  now destruct s.
Qed.

(** int() reads every non-empty string of digits. *)
Lemma int_of_digits (s : string) :
  s <> "" -> all_digits s = true ->
  exists z, int_of_str s = Some z /\ 0 <= z.
Proof.
  intros Hne Hd. unfold int_of_str. rewrite (rstrip_digits s Hd).
  destruct s as [|c s]; [congruence |].
  rewrite all_digits_cons in Hd. apply andb_prop in Hd as [Hc Hs].
  destruct (digit_facts c Hc) as (Hsp & Hm & Hp & Hv).
  simpl int_lstrip. rewrite Hsp, Hm, Hp. simpl. rewrite Hc.
  apply int_digits_total; [exact Hs | lia].
Qed.

Lemma string_of_uint_digits (u : Decimal.uint) :
  all_digits (NilEmpty.string_of_uint u) = true.
Proof. induction u; simpl; auto. Qed.

Lemma str_of_int_digits (z : Z) :
  0 <= z ->
  py_str (PyInt z) <> "" /\ all_digits (py_str (PyInt z)) = true.
Proof.
  intros Hz. unfold py_str, NilZero.string_of_int.
  destruct z as [|p|p]; [split; [discriminate | reflexivity] | | lia].
  simpl Z.to_int. unfold NilZero.string_of_uint.
  destruct (Pos.to_uint p) eqn:E; try (split; [discriminate | reflexivity]);
    (split; [discriminate | apply (string_of_uint_digits (_ u))]).
Qed.

Lemma numeric_year_str (year : pyval) :
  numeric_year year = true ->
  py_str year <> "" /\ all_digits (py_str year) = true.
Proof.
  destruct year as [|z|s]; simpl numeric_year; intros H; [discriminate | |].
  - apply str_of_int_digits. lia.
  - apply andb_prop in H as [Hne Hd]. split; [| exact Hd].
    simpl. intros ->. discriminate.
Qed.

Lemma numeric_year_int (year : pyval) :
  numeric_year year = true -> exists y, py_int year = Ret y.
Proof.
  intros H. destruct year as [|z|s]; [discriminate | now exists z |].
  destruct (numeric_year_str _ H) as [Hne Hd].
  destruct (int_of_digits s Hne Hd) as (z & E & _).
  exists z. simpl. now rewrite E.
Qed.

Lemma digits_int (s : string) :
  s <> "" -> all_digits s = true -> exists z, py_int (PyStr s) = Ret z.
Proof.
  intros Hne Hd. destruct (int_of_digits s Hne Hd) as (z & E & _).
  exists z. simpl. now rewrite E.
Qed.

Lemma length_nonempty (s : string) (n : nat) :
  String.length s = S n -> s <> "".
Proof. now destruct s. Qed.

(** ** The slash-year reconciler *)

Ltac unbind := unfold mbind, result_bind.

(** The two ways [get_earlier_of_slash_year] ends once int(year) is defined:
    the year as given, or the four digits found before the separator, which
    then read as a smaller number. *)
Lemma get_earlier_cases (year : pyval) (text : string) (y : Z) :
  py_int year = Ret y ->
  get_earlier_of_slash_year year text = Ret year
  \/ exists g f,
       get_earlier_of_slash_year year text = Ret (PyStr g)
       /\ String.length g = 4%nat /\ all_digits g = true
       /\ py_int (PyStr g) = Ret f /\ f < y.
Proof.
  intros Hy. unfold get_earlier_of_slash_year.
  destruct (Re.search _ text) as [m|] eqn:Hm; [| now left].
  destruct (earlier_group _ _ _ _ Hm) as (g & Hg & Hlen & Hd).
  unfold Re.group1. rewrite Hg.
  destruct (digits_int g (length_nonempty _ _ Hlen) Hd) as (f & Hf).
  unbind. rewrite Hf, Hy.
  destruct (f <? y) eqn:Hlt; [right | now left].
  exists g, f. apply Z.ltb_lt in Hlt. auto.
Qed.

Lemma expanded_digits (year : pyval) (g : string) :
  numeric_year year = true ->
  (String.length g = 2%nat \/ String.length g = 4%nat) ->
  all_digits g = true ->
  expanded year g <> "" /\ all_digits (expanded year g) = true.
Proof.
  intros Hn Hlen Hd. unfold expanded.
  destruct (numeric_year_str _ Hn) as [_ Hyd].
  destruct (String.length g =? 2)%nat eqn:E.
  - split.
    + intros Habs. apply (f_equal String.length) in Habs.
      rewrite length_append in Habs. simpl in Habs.
      apply Nat.eqb_eq in E. lia.
    + rewrite all_digits_append, Hd, (all_digits_take 2 _ Hyd). reflexivity.
  - split; [| exact Hd]. destruct Hlen as [L|L]; eapply length_nonempty; eauto.
Qed.

Lemma get_later_unfold (year : pyval) (text : string) (m : Re.state)
    (g : string) (c y : Z) :
  Re.search (later_pattern (py_str year)) text = Some m ->
  Re.grp1 m = Some g ->
  py_int (PyStr (expanded year g)) = Ret c ->
  py_int year = Ret y ->
  get_later_of_slash_year year text
  = Ret (if c >? y then PyStr (expanded year g) else year).
Proof.
  intros Hm Hg Hc Hy. unfold get_later_of_slash_year, Re.group1.
  rewrite Hm, Hg. fold (expanded year g). unbind. rewrite Hc, Hy.
  now destruct (c >? y).
Qed.

Lemma get_later_cases (year : pyval) (text : string) (y : Z) :
  numeric_year year = true ->
  py_int year = Ret y ->
  get_later_of_slash_year year text = Ret year
  \/ exists s f,
       get_later_of_slash_year year text = Ret (PyStr s)
       /\ s <> "" /\ all_digits s = true
       /\ py_int (PyStr s) = Ret f /\ y < f.
Proof.
  intros Hn Hy.
  destruct (Re.search (later_pattern (py_str year)) text) as [m|] eqn:Hm.
  - destruct (later_group _ _ _ Hm) as (g & Hg & Hlen & Hd).
    destruct (expanded_digits year g Hn Hlen Hd) as [Hne Hed].
    destruct (digits_int _ Hne Hed) as (c & Hc).
    rewrite (get_later_unfold _ _ _ _ _ _ Hm Hg Hc Hy).
    destruct (c >? y) eqn:Hgt; [right | now left].
    exists (expanded year g), c. apply Z.gtb_lt in Hgt. auto.
  - left. unfold get_later_of_slash_year. now rewrite Hm.
Qed.

(** C2. double_check_slash_start_year answers True exactly when the later
    reading of the holdings year is, as a number, at least the earlier
    reading of the bibliographic year, and False otherwise; with the
    bibliographic pair (2001, "2001") and the holdings pair
    (2000, "2000/01") the answer is True. *)
Theorem double_check_slash_start_year_spec
    (bib_year : pyval) (bib_string : string)
    (holdings_year : pyval) (holdings_string : string) :
  numeric_year bib_year = true ->
  numeric_year holdings_year = true ->
  (exists bib' holdings' b h,
     get_earlier_of_slash_year bib_year bib_string = Ret bib'
     /\ get_later_of_slash_year holdings_year holdings_string = Ret holdings'
     /\ py_int bib' = Ret b /\ py_int holdings' = Ret h
     /\ double_check_slash_start_year bib_year bib_string
          holdings_year holdings_string = Ret (b <=? h)
     /\ (double_check_slash_start_year bib_year bib_string
           holdings_year holdings_string = Ret true <-> b <= h)
     /\ (double_check_slash_start_year bib_year bib_string
           holdings_year holdings_string = Ret false <-> h < b))
  /\ double_check_slash_start_year (PyInt 2001) "2001" (PyInt 2000) "2000/01"
     = Ret true.
Proof.
  intros Hb Hh. split; [| reflexivity].
  destruct (numeric_year_int _ Hb) as (b0 & Hb0).
  destruct (numeric_year_int _ Hh) as (h0 & Hh0).
  assert (Eb : exists bib' b,
             get_earlier_of_slash_year bib_year bib_string = Ret bib'
             /\ py_int bib' = Ret b).
  { destruct (get_earlier_cases bib_year bib_string b0 Hb0)
      as [E | (g & f & E & _ & _ & Hf & _)]; eauto. }
  assert (Eh : exists holdings' h,
             get_later_of_slash_year holdings_year holdings_string
             = Ret holdings' /\ py_int holdings' = Ret h).
  { destruct (get_later_cases holdings_year holdings_string h0 Hh Hh0)
      as [E | (g & f & E & _ & _ & Hf & _)]; eauto. }
  destruct Eb as (bib' & b & Eb & Ib). destruct Eh as (hold' & h & Eh & Ih).
  assert (E : double_check_slash_start_year bib_year bib_string
                holdings_year holdings_string = Ret (b <=? h)).
  { unfold double_check_slash_start_year. unbind. rewrite Eb, Eh, Ih, Ib.
    rewrite Z.geb_leb. now destruct (b <=? h). }
  exists bib', hold', b, h. repeat split; auto; rewrite E.
  - intros [= H]. now apply Z.leb_le.
  - intros H. apply Z.leb_le in H. now rewrite H.
  - intros [= H]. now apply Z.leb_gt.
  - intros H. apply Z.leb_gt in H. now rewrite H.
Qed.

Lemma double_check_slash_start_year_witness :
  exists bib' holdings' b h,
    get_earlier_of_slash_year (PyStr "1966") "1965/66" = Ret bib'
    /\ get_later_of_slash_year (PyInt 1964) "1964-65" = Ret holdings'
    /\ py_int bib' = Ret b /\ py_int holdings' = Ret h
    /\ double_check_slash_start_year (PyStr "1966") "1965/66"
         (PyInt 1964) "1964-65" = Ret (b <=? h)
    /\ (double_check_slash_start_year (PyStr "1966") "1965/66"
          (PyInt 1964) "1964-65" = Ret true <-> b <= h)
    /\ (double_check_slash_start_year (PyStr "1966") "1965/66"
          (PyInt 1964) "1964-65" = Ret false <-> h < b).
Proof.
  apply (double_check_slash_start_year_spec
           (PyStr "1966") "1965/66" (PyInt 1964) "1964-65");
    reflexivity.
Defined.

(** C3. On a numeric year, get_earlier_of_slash_year returns a value that
    reads as a number at most the year, and get_later_of_slash_year one that
    reads as a number at least the year: neither call moves the year the
    other way. *)
Theorem slash_year_moves_one_way (year : pyval) (text : string) :
  numeric_year year = true ->
  exists y earlier e later l,
    py_int year = Ret y
    /\ get_earlier_of_slash_year year text = Ret earlier
    /\ py_int earlier = Ret e /\ e <= y
    /\ get_later_of_slash_year year text = Ret later
    /\ py_int later = Ret l /\ y <= l.
Proof.
  intros Hn. destruct (numeric_year_int _ Hn) as (y & Hy).
  destruct (get_earlier_cases year text y Hy)
    as [Ee | (g & e & Ee & _ & _ & He & Hlt)];
    destruct (get_later_cases year text y Hn Hy)
      as [El | (s & l & El & _ & _ & Hl & Hgt)].
  - exists y, year, y, year, y. repeat split; auto; lia.
  - exists y, year, y, (PyStr s), l. repeat split; auto; lia.
  - exists y, (PyStr g), e, year, y. repeat split; auto; lia.
  - exists y, (PyStr g), e, (PyStr s), l. repeat split; auto; lia.
Qed.

Lemma slash_year_moves_one_way_witness :
  exists y earlier e later l,
    py_int (PyInt 2000) = Ret y
    /\ get_earlier_of_slash_year (PyInt 2000) "1999/2000/01" = Ret earlier
    /\ py_int earlier = Ret e /\ e <= y
    /\ get_later_of_slash_year (PyInt 2000) "1999/2000/01" = Ret later
    /\ py_int later = Ret l /\ y <= l.
Proof.
  apply (slash_year_moves_one_way (PyInt 2000) "1999/2000/01"). reflexivity.
Defined.

(** C4, as stated, fails in its example: for the year 2000 and the text
    "2000/01 issue" the call does not return the int 2001.  The candidate
    that is adopted is returned as the text it was built from, the str
    "2001". *)
Lemma later_example_is_not_the_int_2001 :
  get_later_of_slash_year (PyInt 2000) "2000/01 issue" <> Ret (PyInt 2001).
Proof. vm_compute. discriminate. Qed.

(** C4, amended.  In get_later_of_slash_year the candidate after the
    separator has two or four digits; one of two digits is expanded with the
    first two characters of the year; the expanded candidate is returned, as
    a str, when it reads as a larger number than the year, and the year is
    returned unchanged otherwise.  For the year 2000 and the text
    "2000/01 issue" the call returns the str "2001", which int() reads as
    2001. *)
Theorem get_later_of_slash_year_candidate (year : pyval) (text : string) :
  numeric_year year = true ->
  ((Re.search (later_pattern (py_str year)) text = None
    /\ get_later_of_slash_year year text = Ret year)
   \/ exists m g c y,
        Re.search (later_pattern (py_str year)) text = Some m
        /\ Re.group1 m = PyStr g
        /\ (String.length g = 2%nat \/ String.length g = 4%nat)
        /\ all_digits g = true
        /\ (String.length g = 2%nat ->
            expanded year g = str_take 2 (py_str year) +:+ g)
        /\ (String.length g = 4%nat -> expanded year g = g)
        /\ py_int (PyStr (expanded year g)) = Ret c
        /\ py_int year = Ret y
        /\ (y < c ->
            get_later_of_slash_year year text = Ret (PyStr (expanded year g)))
        /\ (c <= y -> get_later_of_slash_year year text = Ret year))
  /\ get_later_of_slash_year (PyInt 2000) "2000/01 issue" = Ret (PyStr "2001")
  /\ py_int (PyStr "2001") = Ret 2001.
Proof.
  intros Hn. split; [| split; reflexivity].
  destruct (Re.search (later_pattern (py_str year)) text) as [m|] eqn:Hm.
  - right. destruct (later_group _ _ _ Hm) as (g & Hg & Hlen & Hd).
    destruct (expanded_digits year g Hn Hlen Hd) as [Hne Hed].
    destruct (digits_int _ Hne Hed) as (c & Hc).
    destruct (numeric_year_int _ Hn) as (y & Hy).
    pose proof (get_later_unfold _ _ _ _ _ _ Hm Hg Hc Hy) as E.
    exists m, g, c, y. unfold Re.group1. rewrite Hg.
    repeat split; auto.
    + intros L. unfold expanded. now rewrite L.
    + intros L. unfold expanded. now rewrite L.
    + intros H. rewrite E. apply Z.gtb_lt in H. now rewrite H.
    + intros H. rewrite E. destruct (c >? y) eqn:G; [| reflexivity].
      apply Z.gtb_lt in G. lia.
  - left. split; [reflexivity |].
    unfold get_later_of_slash_year. now rewrite Hm.
Qed.

Lemma get_later_of_slash_year_candidate_witness :
  get_later_of_slash_year (PyStr "1999") "v.12 1999 - 2001" = Ret (PyStr "2001").
Proof.
  destruct (get_later_of_slash_year_candidate (PyStr "1999") "v.12 1999 - 2001"
              eq_refl) as [[[Hnone _] | (m & g & c & y & Hm & Hg & _ & _ & _
                           & H4 & Hc & Hy & Hup & _)] _].
  - vm_compute in Hnone. discriminate Hnone.
  - vm_compute in Hm. injection Hm as <-.
    vm_compute in Hg. injection Hg as <-.
    rewrite (H4 eq_refl) in Hup, Hc.
    vm_compute in Hc, Hy. injection Hc as <-. injection Hy as <-.
    apply Hup. lia.
Defined.

(** A text without a hyphen and without a slash has no match of either
    pattern. *)
Lemma has_separator_append (a b : string) :
  has_separator (a +:+ b) = has_separator a || has_separator b.
Proof.
  unfold has_separator. induction a as [|c a IH]; [reflexivity |].
  rewrite append_cons. simpl. now rewrite IH, orb_assoc.
Qed.

Lemma slash_then_spans (tail : Re.t) (w : string) (g g' : option string) :
  Re.spans (slash_then tail) w g g' -> has_separator w = true.
Proof.
  unfold slash_then. cbn [Re.spans].
  intros (w1 & w2 & g1 & -> & _ & w3 & w4 & g2 & -> & (c & -> & Hc & _) & _).
  rewrite !has_separator_append. unfold has_separator at 2. simpl.
  rewrite Hc. now rewrite orb_true_r.
Qed.

Lemma match_needs_separator (r tail : Re.t) (text : string) :
  has_separator text = false ->
  Re.search (Re.Seq r (slash_then tail)) text = None.
Proof.
  intros Hno. destruct (Re.search _ text) as [m|] eqn:Hm; [| reflexivity].
  apply ReFacts.search_spans_in in Hm.
  destruct Hm as (before & w & -> & Sp). cbn [Re.spans] in Sp.
  destruct Sp as (w1 & w2 & g1 & -> & _ & Sp).
  apply slash_then_spans in Sp.
  rewrite !has_separator_append, Sp in Hno.
  rewrite !orb_true_r in Hno. discriminate Hno.
Qed.

(** C5. On a numeric year, the years the pattern is built for: when the
    search of its pattern finds nothing in the text, each of
    get_earlier_of_slash_year and get_later_of_slash_year returns the year
    as it was given, and raises nothing; that is the case of every text
    without a hyphen and without a slash. *)
Theorem slash_year_identity_without_match (year : pyval) (text : string) :
  numeric_year year = true ->
  (Re.search (earlier_pattern (py_str year) (str_drop 2 (py_str year))) text
   = None ->
   get_earlier_of_slash_year year text = Ret year)
  /\ (Re.search (later_pattern (py_str year)) text = None ->
      get_later_of_slash_year year text = Ret year)
  /\ (has_separator text = false ->
      get_earlier_of_slash_year year text = Ret year
      /\ get_later_of_slash_year year text = Ret year).
Proof.
  intros _.
  assert (He : Re.search (earlier_pattern (py_str year)
                 (str_drop 2 (py_str year))) text = None ->
               get_earlier_of_slash_year year text = Ret year).
  { intros H. unfold get_earlier_of_slash_year. now rewrite H. }
  assert (Hl : Re.search (later_pattern (py_str year)) text = None ->
               get_later_of_slash_year year text = Ret year).
  { intros H. unfold get_later_of_slash_year. now rewrite H. }
  split; [exact He | split; [exact Hl |]].
  intros Hno. split.
  - apply He. now apply match_needs_separator.
  - apply Hl. now apply match_needs_separator.
Qed.

Lemma slash_year_identity_without_match_witness :
  get_earlier_of_slash_year (PyInt 1987) "v.3 (1985)-v.9 (1991)" = Ret (PyInt 1987)
  /\ get_later_of_slash_year (PyInt 1987) "v.3 (1985)-v.9 (1991)" = Ret (PyInt 1987)
  /\ get_later_of_slash_year (PyStr "1987") "v.5 1987 only" = Ret (PyStr "1987").
Proof.
  split; [| split].
  - apply (proj1 (slash_year_identity_without_match (PyInt 1987)
                    "v.3 (1985)-v.9 (1991)" eq_refl)).
    vm_compute. reflexivity.
  - apply (proj1 (proj2 (slash_year_identity_without_match (PyInt 1987)
                           "v.3 (1985)-v.9 (1991)" eq_refl))).
    vm_compute. reflexivity.
  - apply (proj2 (proj2 (slash_year_identity_without_match (PyStr "1987")
                           "v.5 1987 only" eq_refl))).
    vm_compute. reflexivity.
Defined.

(** C9, as stated, fails: the value returned is not always an int.  For the
    year 2000 and the text "2000/01 issue", get_later_of_slash_year returns
    the str "2001". *)
Lemma slash_year_result_not_always_int :
  ~ (forall (year : pyval) (text : string),
        (exists z, get_earlier_of_slash_year year text = Ret (PyInt z))
        /\ (exists z, get_later_of_slash_year year text = Ret (PyInt z))).
Proof.
  intros H. destruct (H (PyInt 2000) "2000/01 issue") as [_ [z Hz]].
  vm_compute in Hz. discriminate Hz.
Qed.

(** C9, amended.  On a numeric year each of the two functions returns a value
    that int() reads: either the year exactly as it was given, or, when a
    correction is adopted, a str of decimal digits (four of them from
    get_earlier_of_slash_year).  The integer is what the callers obtain from
    the value with int(). *)
Theorem slash_year_result_reads_as_int (year : pyval) (text : string) :
  numeric_year year = true ->
  (exists v z,
     get_earlier_of_slash_year year text = Ret v /\ py_int v = Ret z
     /\ (v = year
         \/ exists g, v = PyStr g /\ String.length g = 4%nat
                      /\ all_digits g = true))
  /\ (exists v z,
        get_later_of_slash_year year text = Ret v /\ py_int v = Ret z
        /\ (v = year
            \/ exists s, v = PyStr s /\ s <> "" /\ all_digits s = true)).
Proof.
  intros Hn. destruct (numeric_year_int _ Hn) as (y & Hy). split.
  - destruct (get_earlier_cases year text y Hy)
      as [E | (g & f & E & Hlen & Hd & Hf & _)].
    + exists year, y. auto.
    + exists (PyStr g), f. repeat split; auto. right. eauto.
  - destruct (get_later_cases year text y Hn Hy)
      as [E | (s & f & E & Hne & Hd & Hf & _)].
    + exists year, y. auto.
    + exists (PyStr s), f. repeat split; auto. right. eauto.
Qed.

Lemma slash_year_result_reads_as_int_witness :
  (exists v z,
     get_earlier_of_slash_year (PyStr "1901") "1900/01" = Ret v
     /\ py_int v = Ret z
     /\ (v = PyStr "1901"
         \/ exists g, v = PyStr g /\ String.length g = 4%nat
                      /\ all_digits g = true))
  /\ (exists v z,
        get_later_of_slash_year (PyStr "1901") "1900/01" = Ret v
        /\ py_int v = Ret z
        /\ (v = PyStr "1901"
            \/ exists s, v = PyStr s /\ s <> "" /\ all_digits s = true)).
Proof.
  apply (slash_year_result_reads_as_int (PyStr "1901") "1900/01"). reflexivity.
Defined.

(** ** The magic-word classifier *)

Lemma search_data_unknown (search_type : string) :
  search_type <> "completeness" -> search_type <> "binding" ->
  search_type <> "nonprint" ->
  search_data !! search_type = None.
Proof.
  intros H1 H2 H3. unfold search_data. simpl.
  rewrite !lookup_insert_ne by congruence. apply lookup_empty.
Qed.

Lemma search_data_known (search_type : string) :
  search_type = "completeness" \/ search_type = "binding"
  \/ search_type = "nonprint" ->
  exists fragments, search_data !! search_type = Some fragments.
Proof.
  intros [-> | [-> | ->]]; eexists; vm_compute; reflexivity.
Qed.

Lemma scan_fragments_true (fragments : list Re.t) (text : string) :
  scan_fragments fragments text = true <->
  exists fragment, In fragment fragments /\ Re.search fragment text <> None.
Proof.
  induction fragments as [|r l IH]; simpl.
  - split; [discriminate | intros (? & [] & _)].
  - destruct (Re.search r text) eqn:E.
    + split; [| reflexivity]. intros _. exists r. split; [now left |].
      rewrite E. discriminate.
    + rewrite IH. split.
      * intros (f & Hin & Hf). exists f. auto.
      * intros (f & [<- | Hin] & Hf); [congruence |]. exists f. auto.
Qed.

Lemma scan_segments_known (fragments : list Re.t) (search_type : string)
    (segments : list pyval) :
  search_data !! search_type = Some fragments ->
  scan_segments segments search_type
  = Ret (if existsb (segment_matches fragments) segments then "1" else "").
Proof.
  intros Hk. induction segments as [|seg l IH]; [reflexivity |].
  simpl. unfold segment_matches at 1.
  destruct (truthy seg); simpl; [| exact IH].
  rewrite Hk. destruct (scan_fragments _ _); [reflexivity | exact IH].
Qed.

Lemma scan_segments_unknown (search_type : string) (segments : list pyval) :
  search_data !! search_type = None ->
  scan_segments segments search_type
  = if existsb truthy segments then Raise KeyError else Ret "".
Proof.
  intros Hk. induction segments as [|seg l IH]; [reflexivity |].
  simpl. destruct (truthy seg); simpl; [now rewrite Hk | exact IH].
Qed.

(** C7. For each of the conditions completeness, binding and nonprint,
    check_holdings_data_for_magic_words returns "1" exactly when one of the
    three fields is not blank and, lower-cased, is matched by one of the
    fragments of the condition; it returns "" otherwise, and a blank or
    absent field is passed over without an error. *)
Theorem check_holdings_data_for_magic_words_spec
    (holdings holdings_nonpublic_notes holdings_public_notes : pyval)
    (search_type : string) :
  search_type = "completeness" \/ search_type = "binding"
  \/ search_type = "nonprint" ->
  exists fragments,
    search_data !! search_type = Some fragments
    /\ (check_holdings_data_for_magic_words holdings holdings_nonpublic_notes
          holdings_public_notes search_type = Ret "1"
        <-> exists segment fragment,
              In segment
                [holdings; holdings_nonpublic_notes; holdings_public_notes]
              /\ truthy segment = true
              /\ In fragment fragments
              /\ Re.search fragment (lower (py_str segment)) <> None)
    /\ (check_holdings_data_for_magic_words holdings holdings_nonpublic_notes
          holdings_public_notes search_type = Ret "1"
        \/ check_holdings_data_for_magic_words holdings
             holdings_nonpublic_notes holdings_public_notes search_type
           = Ret "").
Proof.
  intros Hk. destruct (search_data_known _ Hk) as (fragments & Hf).
  exists fragments. split; [exact Hf |].
  unfold check_holdings_data_for_magic_words.
  rewrite (scan_segments_known fragments _ _ Hf).
  destruct (existsb _ _) eqn:E.
  - split; [| now left]. split; [intros _ | reflexivity].
    apply existsb_exists in E. destruct E as (seg & Hin & Hm).
    unfold segment_matches in Hm. apply andb_prop in Hm as [Ht Hs].
    apply scan_fragments_true in Hs. destruct Hs as (frag & Hfi & Hs).
    exists seg, frag. auto.
  - split; [| now right]. split; [discriminate |].
    intros (seg & frag & Hin & Ht & Hfi & Hs). exfalso.
    assert (Hex : existsb (segment_matches fragments)
                    [holdings; holdings_nonpublic_notes; holdings_public_notes]
                  = true).
    { apply existsb_exists. exists seg. split; [exact Hin |].
      unfold segment_matches. rewrite Ht. simpl.
      apply scan_fragments_true. eauto. }
    congruence.
Qed.

Lemma check_holdings_data_for_magic_words_spec_witness :
  check_holdings_data_for_magic_words (PyStr "") PyNone
    (PyStr "Bd. with v.3") "binding" = Ret "1".
Proof.
  destruct (check_holdings_data_for_magic_words_spec (PyStr "") PyNone
              (PyStr "Bd. with v.3") "binding" (or_intror (or_introl eq_refl)))
    as (fragments & Hf & [_ Hone] & _).
  vm_compute in Hf. injection Hf as <-.
  apply Hone. exists (PyStr "Bd. with v.3").
  eexists. split; [right; right; left; reflexivity |].
  split; [reflexivity |]. split; [right; left; reflexivity |].
  vm_compute. discriminate.
Defined.

(** C10. With a search_type that is none of completeness, binding and
    nonprint, check_holdings_data_for_magic_words raises KeyError when one of
    the three fields is not blank, and returns "" without an error when the
    three are blank or absent. *)
Theorem check_holdings_data_for_magic_words_unknown_type
    (holdings holdings_nonpublic_notes holdings_public_notes : pyval)
    (search_type : string) :
  search_type <> "completeness" -> search_type <> "binding" ->
  search_type <> "nonprint" ->
  (truthy holdings = true \/ truthy holdings_nonpublic_notes = true
   \/ truthy holdings_public_notes = true ->
   check_holdings_data_for_magic_words holdings holdings_nonpublic_notes
     holdings_public_notes search_type = Raise KeyError)
  /\ (truthy holdings = false -> truthy holdings_nonpublic_notes = false ->
      truthy holdings_public_notes = false ->
      check_holdings_data_for_magic_words holdings holdings_nonpublic_notes
        holdings_public_notes search_type = Ret "").
Proof.
  intros H1 H2 H3. unfold check_holdings_data_for_magic_words.
  rewrite (scan_segments_unknown _ _ (search_data_unknown _ H1 H2 H3)).
  simpl. split.
  - intros [-> | [-> | ->]]; rewrite ?orb_true_r; reflexivity.
  - intros -> -> ->. reflexivity.
Qed.

Lemma check_holdings_data_for_magic_words_unknown_type_witness :
  check_holdings_data_for_magic_words PyNone (PyStr "bound with v.2")
    (PyStr "") "bindings" = Raise KeyError
  /\ check_holdings_data_for_magic_words PyNone (PyStr "") (PyInt 0)
       "bindings" = Ret "".
Proof.
  split.
  - apply (proj1 (check_holdings_data_for_magic_words_unknown_type
                    PyNone (PyStr "bound with v.2") (PyStr "") "bindings"
                    ltac:(discriminate) ltac:(discriminate)
                    ltac:(discriminate))).
    right; left; reflexivity.
  - apply (proj2 (check_holdings_data_for_magic_words_unknown_type
                    PyNone (PyStr "") (PyInt 0) "bindings"
                    ltac:(discriminate) ltac:(discriminate)
                    ltac:(discriminate))); reflexivity.
Defined.

(** ** The unused-filename search *)

Section UnusedFilename.

Variable isfile : string -> bool.
Variables path_base base_filename file_extension full_filename : string.

Local Abbreviation nth_candidate n :=
  (os_path_join path_base (numbered base_filename n file_extension)).

(** From turn [n0] on, the loop returns the first candidate that is free, or
    raises once the candidate 999 is found taken; [999 - n0] turns are enough
    for that. *)
Lemma unused_loop_spec (fuel : nat) :
  forall n0, 0 <= n0 < 999 -> (Z.to_nat (999 - n0) <= fuel)%nat ->
    (exists n, n0 < n <= 999
               /\ isfile (nth_candidate n) = false
               /\ (forall m, n0 < m < n -> isfile (nth_candidate m) = true)
               /\ unused_loop isfile fuel path_base base_filename
                    file_extension full_filename n0
                  = Some (Ret (nth_candidate n)))
    \/ ((forall m, n0 < m <= 999 -> isfile (nth_candidate m) = true)
        /\ unused_loop isfile fuel path_base base_filename file_extension
             full_filename n0
           = Some (Raise (runaway full_filename))).
Proof.
  induction fuel as [|fuel IH]; intros n0 Hn0 Hfuel; [lia |].
  simpl. destruct (isfile (nth_candidate (n0 + 1))) eqn:Hfile; simpl.
  - destruct (Z.geb_spec (n0 + 1) 999) as [Hge | Hlt].
    + right. split; [| reflexivity].
      intros m Hm. replace m with (n0 + 1) by lia. exact Hfile.
    + destruct (IH (n0 + 1) ltac:(lia) ltac:(lia))
        as [(n & Hn & Hfree & Hbefore & E) | (Htaken & E)].
      * left. exists n. split; [lia |]. split; [exact Hfree |].
        split; [| exact E].
        intros m Hm. destruct (Z.eq_dec m (n0 + 1)) as [-> | Hne];
          [exact Hfile | apply Hbefore; lia].
      * right. split; [| exact E].
        intros m Hm. destruct (Z.eq_dec m (n0 + 1)) as [-> | Hne];
          [exact Hfile | apply Htaken; lia].
  - left. exists (n0 + 1). split; [lia |]. split; [exact Hfile |].
    split; [| reflexivity]. intros m Hm. lia.
Qed.

End UnusedFilename.

(** C8, as stated, fails for a path whose final component has no period:
    "README" exists, "README(1)" does not, and the call raises ValueError
    where the claim has it return a numbered path. *)
Lemma get_unused_filename_without_period :
  String.eqb "README" "README" = true
  /\ String.eqb "README" "README(1)" = false
  /\ get_unused_filename (String.eqb "README") 999 "README"
     = Some (Raise ValueError).
Proof. repeat split. Qed.

(** C8, amended.  With the 999 turns the loop can take: a path at which no
    file exists is returned unchanged; for an existing path whose final
    component has a period, the call returns the first of the candidates
    base(n).ext, n = 1, 2, ..., at which no file exists, and raises the
    runaway exception when the candidates 1 to 999 are all taken.  With
    "x.txt" and "x(1).txt" existing, "x.txt" gives "x(2).txt". *)
Theorem get_unused_filename_spec (isfile : string -> bool) (fuel : nat)
    (file_location : string) :
  (999 <= fuel)%nat ->
  (isfile file_location = false ->
   get_unused_filename isfile fuel file_location = Some (Ret file_location))
  /\ (isfile file_location = true -> has_extension file_location = true ->
      (exists n, 1 <= n <= 999
                 /\ isfile (candidate file_location n) = false
                 /\ (forall m, 1 <= m < n ->
                     isfile (candidate file_location m) = true)
                 /\ get_unused_filename isfile fuel file_location
                    = Some (Ret (candidate file_location n)))
      \/ ((forall m, 1 <= m <= 999 ->
           isfile (candidate file_location m) = true)
          /\ get_unused_filename isfile fuel file_location
             = Some (Raise (runaway (snd (os_path_split file_location))))))
  /\ get_unused_filename two_files fuel "x.txt" = Some (Ret "x(2).txt").
Proof.
  intros Hfuel. split; [| split].
  - intros Hfile. unfold get_unused_filename. now rewrite Hfile.
  - intros Hfile Hext. unfold get_unused_filename, candidate, has_extension in *.
    rewrite Hfile. simpl negb. cbv iota.
    destruct (os_path_split file_location) as [path_base full_filename].
    simpl snd in *. unfold rindex.
    destruct (rfind "." full_filename) as [i|]; [| discriminate].
    destruct (unused_loop_spec isfile path_base (str_take i full_filename)
                (str_drop i full_filename) full_filename fuel 0
                ltac:(lia) ltac:(simpl; lia))
      as [(n & Hn & Hfree & Hbefore & E) | (Htaken & E)].
    + left. exists n. split; [lia |]. split; [exact Hfree |].
      split; [| exact E]. intros m Hm. apply Hbefore. lia.
    + right. split; [| exact E]. intros m Hm. apply Htaken. lia.
  - destruct fuel as [|[|fuel]]; [lia | lia | reflexivity].
Qed.

(** An existing path whose final component has no period makes rindex raise
    before the loop is entered. *)
Lemma get_unused_filename_no_period (isfile : string -> bool) (fuel : nat)
    (file_location : string) :
  isfile file_location = true -> has_extension file_location = false ->
  get_unused_filename isfile fuel file_location = Some (Raise ValueError).
Proof.
  intros Hfile Hext. unfold get_unused_filename, has_extension in *.
  rewrite Hfile. simpl negb. cbv iota.
  destruct (os_path_split file_location) as [path_base full_filename].
  simpl snd in *. unfold rindex.
  destruct (rfind "." full_filename) as [i|]; [discriminate | reflexivity].
Qed.

Lemma get_unused_filename_spec_witness :
  get_unused_filename (String.eqb "out/report.xlsx") 1000 "out/report.xlsx"
  = Some (Ret "out/report(1).xlsx")
  /\ get_unused_filename (fun _ => true) 1000 "out/report.xlsx"
     = Some (Raise (runaway "report.xlsx"))
  /\ get_unused_filename (fun _ => false) 1000 "out/report.xlsx"
     = Some (Ret "out/report.xlsx").
Proof.
  assert (Hfuel : (999 <= 1000)%nat) by (apply Nat.leb_le; reflexivity).
  split; [| split].
  - destruct (proj1 (proj2 (get_unused_filename_spec
                              (String.eqb "out/report.xlsx") 1000
                              "out/report.xlsx" Hfuel)) eq_refl eq_refl)
      as [(n & Hn & Hfree & Hbefore & E) | (Htaken & _)].
    + destruct (Z.eq_dec n 1) as [-> | Hne]; [exact E |].
      specialize (Hbefore 1 ltac:(lia)). vm_compute in Hbefore.
      discriminate Hbefore.
    + specialize (Htaken 1 ltac:(lia)). vm_compute in Htaken.
      discriminate Htaken.
  - destruct (proj1 (proj2 (get_unused_filename_spec
                              (fun _ => true) 1000
                              "out/report.xlsx" Hfuel)) eq_refl eq_refl)
      as [(n & _ & Hfree & _) | (_ & E)]; [discriminate Hfree | exact E].
  - apply (proj1 (get_unused_filename_spec (fun _ => false) 1000
                    "out/report.xlsx" Hfuel)). reflexivity.
Defined.

(** ** The fields and issues finder *)

Lemma aliases_resolve_lookup (bc : BulkConfig) (name program_name : string) :
  aliases_resolve bc = true ->
  associated_names_map bc !! name = Some program_name ->
  is_Some (bulk_config_data bc !! program_name).
Proof.
  unfold aliases_resolve. intros H%bool_decide_eq_true Hl.
  exact (H name program_name Hl).
Qed.

(** The end of the method returns the global issues when there are some, and
    the built-in ones with a warning otherwise. *)
Lemma global_or_default_issues_spec (vc : ValidatorConfig) :
  (forall issues, config_disqualifying_issues vc = Some issues ->
                  issues <> ∅ ->
                  global_or_default_issues vc = (Ret issues, []))
  /\ (config_disqualifying_issues vc = None
      \/ config_disqualifying_issues vc = Some ∅ ->
      global_or_default_issues vc
      = (Ret (default_disqualifying_issues vc), [using_defaults])).
Proof.
  unfold global_or_default_issues. split.
  - intros issues -> Hne. now rewrite bool_decide_eq_false_2.
  - intros [-> | ->]; [reflexivity |]. now rewrite bool_decide_eq_true_2.
Qed.

(** A file with fields of its own sets the flag. *)
Lemma get_fields_override (self : FieldsAndIssuesFinder) (filename f : string)
    (fields : list string) :
  per_file_fields (validator_config self) !! filename = Some (f :: fields) ->
  get_fields_for_individual_file self filename
  = (Ret (Some (f :: fields)), set_use_validator_config self true).
Proof.
  intros H. unfold get_fields_for_individual_file, get_input_fields.
  now rewrite H.
Qed.

(** What holds of the scenario of C1: after the fields of a file came from
    its override, the issues are the global or built-in ones as long as the
    institution of the file is not an associated name. *)
Lemma override_without_alias_falls_through (self : FieldsAndIssuesFinder)
    (filename f : string) (fields : list string) :
  per_file_fields (validator_config self) !! filename = Some (f :: fields) ->
  associated_names_map (bulk_config self)
    !! get_institution_name_from_filename filename = None ->
  get_issues_for_individual_file
    (snd (get_fields_for_individual_file self filename)) (Some filename)
  = global_or_default_issues (validator_config self).
Proof.
  intros Hov Hal. rewrite (get_fields_override _ _ _ _ Hov). simpl snd.
  unfold get_issues_for_individual_file. simpl.
  destruct filename as [|c t]; [reflexivity |]. simpl filename_given. cbv iota.
  rewrite Hal. now destruct (bulk_config_data (bulk_config self) !! _).
Qed.

(** C1, at the failing input.  "abc.tsv" has an override and "abc" is an
    associated name of "consortium": get_fields_for_individual_file returns
    the override's fields, and the call of get_issues_for_individual_file
    that follows returns the issues of "consortium" from the bulk
    configuration, not the global issues the claim has it fall through to. *)
Theorem override_then_alias_issues :
  let finder := new_finder example_validator_config example_bulk_config in
  let after := get_fields_for_individual_file finder "abc.tsv" in
  fst after = Ret (Some ["001"; "866"])
  /\ use_validator_config (snd after) = true
  /\ get_issues_for_individual_file (snd after) (Some "abc.tsv")
     = (Ret consortium_issues, [using_issues_of "consortium"])
  /\ global_or_default_issues example_validator_config
     = (Ret global_issues, [])
  /\ consortium_issues <> global_issues.
Proof.
  cbv zeta. repeat split; try (vm_compute; reflexivity).
  intros H. apply (f_equal (fun m => m !! "no_oclc_number")) in H.
  vm_compute in H. discriminate H.
Qed.

(** C6, as stated, fails where it has the call return the global or built-in
    issues whenever the override was used: with the flag set and "abc" an
    associated name, the issues of "consortium" are returned. *)
Lemma override_used_does_not_force_global :
  ~ (forall (self : FieldsAndIssuesFinder) (filename : option string),
        use_validator_config self = true ->
        get_issues_for_individual_file self filename
        = global_or_default_issues (validator_config self)).
Proof.
  intros H.
  specialize (H (set_use_validator_config
                   (new_finder example_validator_config example_bulk_config)
                   true)
                (Some "abc.tsv") eq_refl).
  apply (f_equal snd) in H. vm_compute in H. discriminate H.
Qed.

(** Without the assumption on the associated names the call can raise: the
    lookup of the program in the bulk configuration is not guarded. *)
Lemma dangling_alias_raises :
  aliases_resolve dangling_bulk_config = false
  /\ get_issues_for_individual_file
       (new_finder bare_validator_config dangling_bulk_config)
       (Some "abc.tsv")
     = (Raise KeyError, [using_issues_of "ghost"]).
Proof. split; vm_compute; reflexivity. Qed.

(** C6, amended.  When every associated name leads to an institution of the
    bulk configuration, get_issues_for_individual_file returns a mapping for
    every filename, given or not.  It returns the global issues when they
    exist and are not empty, and otherwise the built-in ones with a warning
    logged, when no filename is given and when the institution of the file is
    not an associated name and either is not in the bulk configuration or the
    override was used. *)
Theorem get_issues_for_individual_file_total (self : FieldsAndIssuesFinder)
    (filename : option string) :
  aliases_resolve (bulk_config self) = true ->
  (exists issues,
     fst (get_issues_for_individual_file self filename) = Ret issues)
  /\ (filename_given filename = None ->
      get_issues_for_individual_file self filename
      = global_or_default_issues (validator_config self))
  /\ (forall name,
        filename_given filename = Some name ->
        associated_names_map (bulk_config self)
          !! get_institution_name_from_filename name = None ->
        use_validator_config self = true
        \/ bulk_config_data (bulk_config self)
             !! get_institution_name_from_filename name = None ->
        get_issues_for_individual_file self filename
        = global_or_default_issues (validator_config self))
  /\ (forall issues,
        config_disqualifying_issues (validator_config self) = Some issues ->
        issues <> ∅ ->
        global_or_default_issues (validator_config self) = (Ret issues, []))
  /\ (config_disqualifying_issues (validator_config self) = None
      \/ config_disqualifying_issues (validator_config self) = Some ∅ ->
      global_or_default_issues (validator_config self)
      = (Ret (default_disqualifying_issues (validator_config self)),
         [using_defaults])).
Proof.
  intros Hal.
  assert (Hg : exists issues,
             fst (global_or_default_issues (validator_config self))
             = Ret issues).
  { unfold global_or_default_issues.
    destruct (config_disqualifying_issues _) as [d|]; [| eauto].
    destruct (bool_decide _); simpl; eauto. }
  split; [| split; [| split; [| apply global_or_default_issues_spec]]].
  - unfold get_issues_for_individual_file.
    destruct (filename_given filename) as [name|]; [| exact Hg].
    destruct (bulk_config_data _ !! get_institution_name_from_filename name)
      as [entry|] eqn:Hb.
    + destruct (negb (use_validator_config self)); [simpl; eauto |].
      destruct (associated_names_map _ !! _) as [p|] eqn:Ha; [| exact Hg].
      destruct (aliases_resolve_lookup _ _ _ Hal Ha) as [e ->]. simpl. eauto.
    + destruct (associated_names_map _ !! _) as [p|] eqn:Ha; [| exact Hg].
      destruct (aliases_resolve_lookup _ _ _ Hal Ha) as [e ->]. simpl. eauto.
  - intros Hn. unfold get_issues_for_individual_file. now rewrite Hn.
  - intros name Hn Ha Hcase. unfold get_issues_for_individual_file.
    rewrite Hn, Ha.
    destruct Hcase as [-> | ->]; [| reflexivity].
    now destruct (bulk_config_data _ !! _).
Qed.

Lemma get_issues_for_individual_file_total_witness :
  fst (get_issues_for_individual_file
         (new_finder bare_validator_config example_bulk_config)
         (Some "input/ABC.holdings.tsv"))
  = Ret consortium_issues
  /\ get_issues_for_individual_file
       (new_finder bare_validator_config example_bulk_config) (Some "")
     = (Ret builtin_issues, [using_defaults])
  /\ get_issues_for_individual_file
       (set_use_validator_config
          (new_finder example_validator_config example_bulk_config) true)
       (Some "xyz.mrk")
     = (Ret global_issues, []).
Proof.
  split; [| split].
  - destruct (proj1 (get_issues_for_individual_file_total
                       (new_finder bare_validator_config example_bulk_config)
                       (Some "input/ABC.holdings.tsv") eq_refl))
      as [issues E].
    rewrite E. vm_compute in E. exact (eq_sym E).
  - destruct (get_issues_for_individual_file_total
                (new_finder bare_validator_config example_bulk_config)
                (Some "") eq_refl) as (_ & Hnone & _ & _ & Hdef).
    rewrite (Hnone eq_refl). apply Hdef. left. reflexivity.
  - destruct (get_issues_for_individual_file_total
                (set_use_validator_config
                   (new_finder example_validator_config example_bulk_config)
                   true)
                (Some "xyz.mrk") eq_refl) as (_ & _ & Hname & Hglob & _).
    rewrite (Hname "xyz.mrk" eq_refl eq_refl (or_introl eq_refl)).
    apply (Hglob global_issues eq_refl).
    intros H. apply (f_equal (fun m => m !! "holdings_out_of_range")) in H.
    vm_compute in H. discriminate H.
Defined.

(** ** The examples of the specification, evaluated *)

Example earlier_of_2001 :
  get_earlier_of_slash_year (PyInt 2001) "2000/01 issue" = Ret (PyStr "2000").
Proof. reflexivity. Qed.

(** The candidate must end at a word boundary: "2005x" offers none. *)
Example later_needs_word_boundary :
  get_later_of_slash_year (PyStr "2000") "v.1 2000 - 2005x" = Ret (PyStr "2000").
Proof. reflexivity. Qed.

(** "00" is read in the century of the year, 1900, which is not later. *)
Example later_same_century :
  get_later_of_slash_year (PyStr "1999") "1999/00" = Ret (PyStr "1999").
Proof. reflexivity. Qed.

Example end_year_2000 :
  double_check_slash_end_year (PyInt 2000) "2000" (PyInt 2001) "2000/01"
  = Ret true.
Proof. reflexivity. Qed.

Example magic_incomplete :
  check_holdings_data_for_magic_words (PyStr "v.1-5 incomplete") PyNone PyNone
    "completeness" = Ret "1".
Proof. vm_compute. reflexivity. Qed.

Example magic_blank :
  check_holdings_data_for_magic_words (PyStr "") PyNone PyNone "binding"
  = Ret "".
Proof. vm_compute. reflexivity. Qed.

Example magic_compact_disc :
  check_holdings_data_for_magic_words PyNone (PyStr "Issued on C.D.") PyNone
    "nonprint" = Ret "1"
  /\ check_holdings_data_for_magic_words PyNone (PyStr "CDs and records")
       PyNone "nonprint" = Ret "".
Proof. split; vm_compute; reflexivity. Qed.

Example institution_of_file :
  get_institution_name_from_filename "input/ABC.Holdings.TSV" = "abc".
Proof. reflexivity. Qed.

(** Without an override, an associated name gives the fields of its program. *)
Example fields_through_alias :
  get_fields_for_individual_file
    (new_finder bare_validator_config example_bulk_config) "abc.tsv"
  = (Ret (Some ["004"; "035"]),
     new_finder bare_validator_config example_bulk_config).
Proof. vm_compute. reflexivity. Qed.

(* ===================================================================== *)
(** * Further properties of the module *)
(* ===================================================================== *)

(** ** The two readings of a year *)

Lemma earlier_reading (year : pyval) (text : string) (y : Z) :
  py_int year = Ret y ->
  exists v e,
    get_earlier_of_slash_year year text = Ret v /\ py_int v = Ret e /\ e <= y.
Proof.
  intros Hy.
  destruct (get_earlier_cases year text y Hy)
    as [E | (g & f & E & _ & _ & Hf & Hlt)].
  - exists year, y. repeat split; auto. lia.
  - exists (PyStr g), f. repeat split; auto. lia.
Qed.

Lemma later_reading (year : pyval) (text : string) (y : Z) :
  numeric_year year = true -> py_int year = Ret y ->
  exists v l,
    get_later_of_slash_year year text = Ret v /\ py_int v = Ret l /\ y <= l.
Proof.
  intros Hn Hy.
  destruct (get_later_cases year text y Hn Hy)
    as [E | (s & f & E & _ & _ & Hf & Hlt)].
  - exists year, y. repeat split; auto. lia.
  - exists (PyStr s), f. repeat split; auto. lia.
Qed.

(** X1. double_check_slash_end_year answers True exactly when the earlier
    reading of the holdings year is, as a number, at most the later reading
    of the bibliographic year, and False otherwise; it raises nothing on
    numeric years. *)
Theorem double_check_slash_end_year_spec
    (bib_year : pyval) (bib_string : string)
    (holdings_year : pyval) (holdings_string : string) :
  numeric_year bib_year = true ->
  numeric_year holdings_year = true ->
  exists holdings' bib' h b,
    get_earlier_of_slash_year holdings_year holdings_string = Ret holdings'
    /\ get_later_of_slash_year bib_year bib_string = Ret bib'
    /\ py_int holdings' = Ret h /\ py_int bib' = Ret b
    /\ double_check_slash_end_year bib_year bib_string
         holdings_year holdings_string = Ret (h <=? b).
Proof.
  intros Hb Hh.
  destruct (numeric_year_int _ Hb) as (b0 & Hb0).
  destruct (numeric_year_int _ Hh) as (h0 & Hh0).
  destruct (earlier_reading holdings_year holdings_string h0 Hh0)
    as (hv & h & Eh & Ih & _).
  destruct (later_reading bib_year bib_string b0 Hb Hb0)
    as (bv & b & Eb & Ib & _).
  exists hv, bv, h, b. repeat split; auto.
  unfold double_check_slash_end_year. unbind. rewrite Eh, Eb, Ih, Ib.
  now destruct (h <=? b).
Qed.

Lemma double_check_slash_end_year_spec_witness :
  exists holdings' bib' h b,
    get_earlier_of_slash_year (PyInt 1966) "1965/66" = Ret holdings'
    /\ get_later_of_slash_year (PyStr "1964") "1964-65" = Ret bib'
    /\ py_int holdings' = Ret h /\ py_int bib' = Ret b
    /\ double_check_slash_end_year (PyStr "1964") "1964-65"
         (PyInt 1966) "1965/66" = Ret (h <=? b).
Proof.
  apply (double_check_slash_end_year_spec
           (PyStr "1964") "1964-65" (PyInt 1966) "1965/66"); reflexivity.
Defined.

(** X2. The two checks only ever forgive.  When the holdings year is, as
    given, not before the bibliographic year, double_check_slash_start_year
    answers True whatever the two texts hold; when it is not after it,
    double_check_slash_end_year answers True. *)
Theorem slash_checks_accept_nominal_order
    (bib_year : pyval) (bib_string : string)
    (holdings_year : pyval) (holdings_string : string) (b h : Z) :
  numeric_year bib_year = true ->
  numeric_year holdings_year = true ->
  py_int bib_year = Ret b ->
  py_int holdings_year = Ret h ->
  (b <= h ->
   double_check_slash_start_year bib_year bib_string
     holdings_year holdings_string = Ret true)
  /\ (h <= b ->
      double_check_slash_end_year bib_year bib_string
        holdings_year holdings_string = Ret true).
Proof.
  intros Hnb Hnh Hb Hh. split; intros Hle.
  - destruct (earlier_reading bib_year bib_string b Hb)
      as (bv & b' & Eb & Ib & Hb').
    destruct (later_reading holdings_year holdings_string h Hnh Hh)
      as (hv & h' & Eh & Ih & Hh').
    unfold double_check_slash_start_year. unbind. rewrite Eb, Eh, Ih, Ib.
    destruct (Z.geb_spec h' b'); [reflexivity | lia].
  - destruct (earlier_reading holdings_year holdings_string h Hh)
      as (hv & h' & Eh & Ih & Hh').
    destruct (later_reading bib_year bib_string b Hnb Hb)
      as (bv & b' & Eb & Ib & Hb').
    unfold double_check_slash_end_year. unbind. rewrite Eh, Eb, Ih, Ib.
    destruct (Z.leb_spec h' b'); [reflexivity | lia].
Qed.

Lemma slash_checks_accept_nominal_order_witness :
  double_check_slash_start_year (PyInt 1950) "1949/50-1960"
    (PyStr "1950") "1950-1949" = Ret true
  /\ double_check_slash_end_year (PyInt 1950) "1949/50-1960"
       (PyStr "1950") "1950-1949" = Ret true.
Proof.
  split.
  - apply (proj1 (slash_checks_accept_nominal_order
                    (PyInt 1950) "1949/50-1960" (PyStr "1950") "1950-1949"
                    1950 1950 eq_refl eq_refl eq_refl eq_refl)).
    lia.
  - apply (proj2 (slash_checks_accept_nominal_order
                    (PyInt 1950) "1949/50-1960" (PyStr "1950") "1950-1949"
                    1950 1950 eq_refl eq_refl eq_refl eq_refl)).
    lia.
Defined.

(** ** The range of an adopted correction *)

Lemma int_of_four_digits (a b c d : ascii) :
  is_digit a = true -> is_digit b = true -> is_digit c = true ->
  is_digit d = true ->
  int_of_str (String a (String b (String c (String d ""))))
  = Some (1000 * digit_val a + 100 * digit_val b + 10 * digit_val c
          + digit_val d).
Proof.
  intros Ha Hb Hc Hd. unfold int_of_str.
  rewrite rstrip_digits by (apply four_digits; assumption).
  destruct (digit_facts a Ha) as (Hsp & Hm & Hp & _).
  cbn [int_lstrip]. rewrite Hsp, Hm, Hp. cbn [int_body]. rewrite Ha.
  cbn [int_digits]. rewrite Hb. cbn [int_digits]. rewrite Hc.
  cbn [int_digits]. rewrite Hd. cbn [int_digits]. f_equal. lia.
Qed.

Lemma one_of_6789_cases (c : ascii) :
  Re.one_of "6789" c = true -> 6 <= digit_val c <= 9 /\ is_digit c = true.
Proof.
  unfold Re.one_of. simpl. rewrite !orb_true_iff.
  intros H. repeat destruct H as [H | H]; try discriminate;
    apply Ascii.eqb_eq in H; subst; vm_compute; intuition congruence.
Qed.

Lemma one_of_01_cases (c : ascii) :
  Re.one_of "01" c = true -> 0 <= digit_val c <= 1 /\ is_digit c = true.
Proof.
  unfold Re.one_of. simpl. rewrite !orb_true_iff.
  intros H. repeat destruct H as [H | H]; try discriminate;
    apply Ascii.eqb_eq in H; subst; vm_compute; intuition congruence.
Qed.

(** As [crack_spans], keeping the values of the digits that are listed. *)
Ltac crack_values :=
  repeat match goal with
    | H : _ /\ _ |- _ => destruct H
    | H : _ \/ _ |- _ => destruct H
    | H : exists _, _ |- _ => destruct H
    | H : Ascii.eqb _ _ = true |- _ => apply Ascii.eqb_eq in H
    | H : Re.one_of "6789" _ = true |- _ => apply one_of_6789_cases in H
    | H : Re.one_of "01" _ = true |- _ => apply one_of_01_cases in H
    end;
  subst; cbv [String.append].

Ltac four_digit_value :=
  rewrite int_of_four_digits by (assumption || reflexivity);
  eexists; split; [reflexivity |];
  repeat match goal with
    | H : is_digit ?c = true |- _ =>
        let F := fresh "F" in
        pose proof (digit_facts c H) as (_ & _ & _ & F); clear H
    end;
  change (digit_val "1") with 1; change (digit_val "2") with 2;
  change (digit_val "0") with 0; lia.


(** The candidates of [second_year_regex]: such a year, or two digits. *)
Lemma second_year_regex_value (w : string) (g g' : option string) :
  Re.spans second_year_regex w g g' ->
  (String.length w = 4%nat
   /\ exists z, int_of_str w = Some z /\ 1600 <= z <= 2020)
  \/ (exists a b, w = String a (String b "")
                  /\ is_digit a = true /\ is_digit b = true).
Proof.
  unfold second_year_regex, digit. cbn [Re.spans Re.lit]. intros H.
  crack_values;
    first [ left; split; [reflexivity | four_digit_value]
          | right; eauto ].
Qed.


Lemma later_group_value (year text : string) (m : Re.state) :
  Re.search (later_pattern year) text = Some m ->
  exists g, Re.grp1 m = Some g
            /\ ((String.length g = 4%nat
                 /\ exists z, int_of_str g = Some z /\ 1600 <= z <= 2020)
                \/ (exists a b, g = String a (String b "")
                                /\ is_digit a = true /\ is_digit b = true)).
Proof.
  intros H. apply ReFacts.search_spans in H. destruct H as (w & Sp).
  unfold later_pattern, slash_then in Sp. cbn [Re.spans] in Sp.
  destruct Sp as (w1 & w2 & g1 & _ & Sl & Sp).
  destruct Sp as (w3 & w4 & g2 & _ & [_ ->] & Sp).
  destruct Sp as (w5 & w6 & g3 & _ & (c & _ & _ & ->) & Sp).
  destruct Sp as (w7 & w8 & g4 & _ & [_ ->] & Sp).
  destruct Sp as (w9 & w10 & g5 & _ & (g0 & Sy & ->) & [_ ->]).
  exists w9. split; [reflexivity |]. eapply second_year_regex_value; eauto.
Qed.



(** The text and the number of a year of four digits. *)
Lemma four_digit_year_facts (year : pyval) :
  four_digit_year year = true ->
  exists a b c d,
    py_str year = String a (String b (String c (String d "")))
    /\ is_digit a = true /\ is_digit b = true /\ is_digit c = true
    /\ is_digit d = true
    /\ py_int year
       = Ret (1000 * digit_val a + 100 * digit_val b + 10 * digit_val c
              + digit_val d)
    /\ numeric_year year = true.
Proof.
  destruct year as [|z|s]; simpl four_digit_year; intros H; [discriminate | |].
  - apply andb_prop in H as [Hlo Hhi].
    apply Z.leb_le in Hlo, Hhi.
    pose (check := fun n : nat =>
      let z := 1000 + Z.of_nat n in
      match py_str (PyInt z) with
      | String a (String b (String c (String d EmptyString))) =>
          is_digit a && is_digit b && is_digit c && is_digit d
          && (z =? 1000 * digit_val a + 100 * digit_val b + 10 * digit_val c
                   + digit_val d)
      | _ => false
      end).
    assert (Hall : forallb check (seq 0 (Z.to_nat 9000)) = true)
      by (vm_compute; reflexivity).
    assert (Hn : check (Z.to_nat (z - 1000)) = true).
    { eapply forallb_forall in Hall; [exact Hall |].
      apply in_seq. lia. }
    unfold check in Hn. cbv zeta in Hn.
    replace (1000 + Z.of_nat (Z.to_nat (z - 1000))) with z in Hn by lia.
    destruct (py_str (PyInt z)) as [|a [|b [|c [|d [|? ?]]]]];
      try discriminate Hn.
    apply andb_prop in Hn as [Hn Hv]. apply andb_prop in Hn as [Hn Hd].
    apply andb_prop in Hn as [Hn Hc]. apply andb_prop in Hn as [Ha Hb].
    apply Z.eqb_eq in Hv.
    exists a, b, c, d.
    split; [reflexivity |]. split; [exact Ha |]. split; [exact Hb |].
    split; [exact Hc |]. split; [exact Hd |]. split.
    + cbn [py_int]. now rewrite Hv at 1.
    + simpl. apply Z.leb_le. lia.
  - apply andb_prop in H as [Hlen Hd]. apply Nat.eqb_eq in Hlen.
    destruct s as [|a [|b [|c [|d [|? ?]]]]]; try discriminate Hlen.
    rewrite !all_digits_cons in Hd.
    apply andb_prop in Hd as [Ha Hd]. apply andb_prop in Hd as [Hb Hd].
    apply andb_prop in Hd as [Hc Hd]. apply andb_prop in Hd as [Hd _].
    exists a, b, c, d.
    split; [reflexivity |]. split; [exact Ha |]. split; [exact Hb |].
    split; [exact Hc |]. split; [exact Hd |]. split.
    + cbn [py_int]. now rewrite int_of_four_digits.
    + simpl. rewrite !all_digits_cons, Ha, Hb, Hc, Hd. reflexivity.
Qed.

Lemma same_hundreds (a b c d p q : Z) :
  0 <= c <= 9 -> 0 <= d <= 9 -> 0 <= p <= 9 -> 0 <= q <= 9 ->
  (1000 * a + 100 * b + 10 * p + q) / 100
  = (1000 * a + 100 * b + 10 * c + d) / 100.
Proof.
  intros Hc Hd Hp Hq.
  replace (1000 * a + 100 * b + 10 * p + q)
    with ((10 * p + q) + (10 * a + b) * 100) by lia.
  replace (1000 * a + 100 * b + 10 * c + d)
    with ((10 * c + d) + (10 * a + b) * 100) by lia.
  rewrite !Z.div_add by lia. rewrite !Z.div_small by lia. reflexivity.
Qed.

(** X4. On a year of four digits, what get_later_of_slash_year returns is
    the year itself, or a year between 1600 and 2020, or a year of the same
    century as the year given (a candidate of two digits); in each case it
    is not before the year given. *)
Theorem later_correction_range (year : pyval) (text : string) :
  four_digit_year year = true ->
  exists y v l,
    py_int year = Ret y
    /\ get_later_of_slash_year year text = Ret v
    /\ py_int v = Ret l /\ y <= l
    /\ (v = year \/ 1600 <= l <= 2020 \/ l / 100 = y / 100).
Proof.
  intros H4.
  destruct (four_digit_year_facts _ H4)
    as (a & b & c & d & Hs & Ha & Hb & Hc & Hd & Hy & Hn).
  set (y := 1000 * digit_val a + 100 * digit_val b + 10 * digit_val c
            + digit_val d) in *.
  assert (Hsame : get_later_of_slash_year year text = Ret year ->
                  exists y v l,
                    py_int year = Ret y
                    /\ get_later_of_slash_year year text = Ret v
                    /\ py_int v = Ret l /\ y <= l
                    /\ (v = year \/ 1600 <= l <= 2020 \/ l / 100 = y / 100)).
  { intros E. exists y, year, y.
    split; [exact Hy |]. split; [exact E |]. split; [exact Hy |].
    split; [lia | now left]. }
  destruct (Re.search (later_pattern (py_str year)) text) as [m|] eqn:Hm;
    [| apply Hsame; unfold get_later_of_slash_year; now rewrite Hm].
  destruct (later_group_value _ _ _ Hm) as (g & Hg & Hcase).
  destruct Hcase as [(Hlen & z & Hz & Hr) | (p & q & -> & Hp & Hq)].
  - assert (He : expanded year g = g).
    { unfold expanded. now rewrite Hlen. }
    assert (Hc' : py_int (PyStr (expanded year g)) = Ret z).
    { rewrite He. cbn [py_int]. now rewrite Hz. }
    pose proof (get_later_unfold _ _ _ _ _ _ Hm Hg Hc' Hy) as E.
    rewrite He in E, Hc'.
    destruct (Z.gtb_spec z y) as [Hgt | Hle]; [| exact (Hsame E)].
    exists y, (PyStr g), z.
    split; [exact Hy |]. split; [exact E |]. split; [exact Hc' |].
    split; [lia | right; left; exact Hr].
  - assert (He : expanded year (String p (String q ""))
                 = String a (String b (String p (String q "")))).
    { unfold expanded. simpl. now rewrite Hs. }
    set (l := 1000 * digit_val a + 100 * digit_val b + 10 * digit_val p
              + digit_val q).
    assert (Hc' : py_int (PyStr (expanded year (String p (String q ""))))
                  = Ret l).
    { rewrite He. cbn [py_int]. now rewrite int_of_four_digits. }
    pose proof (get_later_unfold _ _ _ _ _ _ Hm Hg Hc' Hy) as E.
    rewrite He in E, Hc'.
    destruct (Z.gtb_spec l y) as [Hgt | Hle]; [| exact (Hsame E)].
    exists y, (PyStr (String a (String b (String p (String q ""))))), l.
    split; [exact Hy |]. split; [exact E |]. split; [exact Hc' |].
    split; [lia |]. right. right.
    destruct (digit_facts c Hc) as (_ & _ & _ & Fc).
    destruct (digit_facts d Hd) as (_ & _ & _ & Fd).
    destruct (digit_facts p Hp) as (_ & _ & _ & Fp).
    destruct (digit_facts q Hq) as (_ & _ & _ & Fq).
    subst y l. apply same_hundreds; assumption.
Qed.

Lemma later_correction_range_witness :
  exists y v l,
    py_int (PyInt 2050) = Ret y
    /\ get_later_of_slash_year (PyInt 2050) "2050/51" = Ret v
    /\ py_int v = Ret l /\ y <= l
    /\ (v = PyInt 2050 \/ 1600 <= l <= 2020 \/ l / 100 = y / 100).
Proof.
  apply (later_correction_range (PyInt 2050) "2050/51"). reflexivity.
Defined.

(** ** Occurrences of a text *)

Lemma starts_with_append (p b : string) : starts_with p (p +:+ b) = true.
Proof.
  induction p as [|c p IH]; [reflexivity |].
  rewrite append_cons. simpl. now rewrite Ascii.eqb_refl.
Qed.

Lemma starts_with_longer (p a b : string) :
  starts_with p a = true -> starts_with p (a +:+ b) = true.
Proof.
  revert a. induction p as [|c p IH]; intros a H; [reflexivity |].
  destruct a as [|d a]; [discriminate H |].
  rewrite append_cons. simpl in *.
  apply andb_prop in H as [-> H]. now rewrite IH.
Qed.

Lemma contains_here (p b : string) : contains p (p +:+ b) = true.
Proof.
  destruct (p +:+ b) eqn:E; simpl; rewrite <- E, starts_with_append;
    reflexivity.
Qed.

Lemma contains_skip (p a b : string) :
  contains p b = true -> contains p (a +:+ b) = true.
Proof.
  intros H. induction a as [|c a IH]; [exact H |].
  rewrite append_cons. simpl. rewrite IH. apply orb_true_r.
Qed.

Lemma contains_left (p a b : string) :
  contains p a = true -> contains p (a +:+ b) = true.
Proof.
  induction a as [|c a IH]; intros H.
  - simpl in H. rewrite orb_false_r in H.
    destruct p; [| discriminate H]. now destruct b.
  - rewrite append_cons. simpl in *.
    apply orb_prop in H as [H | H].
    + change (String c (a +:+ b)) with (String c a +:+ b).
      now rewrite (starts_with_longer _ _ _ H).
    + rewrite (IH H). apply orb_true_r.
Qed.

Lemma take_drop (n : nat) (s : string) : str_take n s +:+ str_drop n s = s.
Proof.
  revert s. induction n as [|n IH]; intros [|c s]; try reflexivity.
  simpl. rewrite append_cons. now rewrite IH.
Qed.

Lemma spans_lit (s w : string) (g g' : option string) :
  Re.spans (Re.lit s) w g g' -> w = s /\ g' = g.
Proof.
  revert w g g'. induction s as [|c s IH]; intros w g g'; simpl.
  - tauto.
  - intros (w1 & w2 & g1 & -> & (d & -> & Hd & ->) & Sp).
    apply Ascii.eqb_eq in Hd. subst d.
    destruct (IH _ _ _ Sp) as [-> ->]. auto.
Qed.

(** X5. The reconciler only acts on a year that the text shows.  On a
    numeric year, get_later_of_slash_year returns the year as given when the
    text does not contain str(year), and get_earlier_of_slash_year does when
    the text does not contain str(year)[2:]. *)
Theorem slash_year_needs_the_year (year : pyval) (text : string) :
  numeric_year year = true ->
  (contains (py_str year) text = false ->
   get_later_of_slash_year year text = Ret year)
  /\ (contains (str_drop 2 (py_str year)) text = false ->
      get_earlier_of_slash_year year text = Ret year).
Proof.
  intros _. split; intros Hno.
  - unfold get_later_of_slash_year.
    destruct (Re.search _ text) as [m|] eqn:Hm; [| reflexivity].
    apply ReFacts.search_spans_in in Hm.
    destruct Hm as (before & w & -> & Sp).
    unfold later_pattern in Sp. cbn [Re.spans] in Sp.
    destruct Sp as (w1 & w2 & g1 & -> & Sl & _).
    apply spans_lit in Sl. destruct Sl as [-> _].
    rewrite contains_skip in Hno; [discriminate Hno |].
    rewrite !append_assoc. apply contains_here.
  - unfold get_earlier_of_slash_year.
    destruct (Re.search _ text) as [m|] eqn:Hm; [| reflexivity].
    apply ReFacts.search_spans_in in Hm.
    destruct Hm as (before & w & -> & Sp).
    unfold earlier_pattern, slash_then in Sp. cbn [Re.spans] in Sp.
    destruct Sp as (w1 & w2 & g1 & -> & _ & Sp).
    destruct Sp as (w3 & w4 & g2 & -> & _ & Sp).
    destruct Sp as (w5 & w6 & g3 & -> & _ & Sp).
    destruct Sp as (w7 & w8 & g4 & -> & _ & Sp).
    assert (Hin : contains (str_drop 2 (py_str year)) w8 = true).
    { destruct Sp as [Sp | Sp]; apply spans_lit in Sp; destruct Sp as [-> _].
      - rewrite <- (take_drop 2 (py_str year)) at 2.
        apply contains_skip. rewrite <- (append_empty_r (str_drop _ _)) at 2.
        apply contains_here.
      - rewrite <- (append_empty_r (str_drop _ _)) at 2. apply contains_here. }
    rewrite contains_skip in Hno; [discriminate Hno |].
    apply contains_left. do 4 apply contains_skip. exact Hin.
Qed.

Lemma slash_year_needs_the_year_witness :
  get_later_of_slash_year (PyInt 1987) "1986/87-1990/91" = Ret (PyInt 1987)
  /\ get_earlier_of_slash_year (PyStr "1987") "1985/86-1990/91"
     = Ret (PyStr "1987").
Proof.
  split.
  - apply (proj1 (slash_year_needs_the_year (PyInt 1987) "1986/87-1990/91"
                    eq_refl)).
    reflexivity.
  - apply (proj2 (slash_year_needs_the_year (PyStr "1987") "1985/86-1990/91"
                    eq_refl)).
    reflexivity.
Defined.

(** ** The magic words as plain texts *)

Lemma run_lit_nonempty (s : string) :
  forall st, Re.run (Re.lit s) st <> [] <-> starts_with s (Re.rest st) = true.
Proof.
  induction s as [|c s IH]; intros st; simpl.
  - split; [reflexivity | discriminate].
  - destruct (Re.rest st) as [|d u] eqn:Hr; simpl.
    + split; [congruence | discriminate].
    + destruct (Ascii.eqb c d); simpl.
      * rewrite app_nil_r. apply IH.
      * split; [congruence | discriminate].
Qed.

(** Searching a literal is looking for an occurrence of it. *)
Lemma search_lit (s text : string) :
  Re.search (Re.lit s) text <> None <-> contains s text = true.
Proof.
  unfold Re.search. generalize (@None ascii).
  induction text as [|c u IH]; intros pv; simpl.
  - destruct (Re.run (Re.lit s) (Re.State pv "" None)) eqn:E.
    + assert (H : starts_with s "" <> true).
      { intros H. apply (run_lit_nonempty s (Re.State pv "" None)) in H.
        congruence. }
      rewrite orb_false_r. split; [congruence | intros H'; now elim H].
    + assert (H : starts_with s "" = true).
      { apply (run_lit_nonempty s (Re.State pv "" None)). rewrite E.
        discriminate. }
      rewrite H. split; [reflexivity | discriminate].
  - destruct (Re.run (Re.lit s) (Re.State pv (String c u) None)) eqn:E.
    + assert (H : starts_with s (String c u) = false).
      { destruct (starts_with s (String c u)) eqn:Hs; [| reflexivity].
        apply (run_lit_nonempty s (Re.State pv (String c u) None)) in Hs.
        congruence. }
      rewrite H. simpl. apply IH.
    + assert (H : starts_with s (String c u) = true).
      { apply (run_lit_nonempty s (Re.State pv (String c u) None)).
        rewrite E. discriminate. }
      rewrite H. split; [reflexivity | discriminate].
Qed.

(** X6. For the condition completeness the classifier is a search for
    seven words: it returns "1" exactly when one of the three fields is not
    blank and, lower-cased, contains one of inc, compl, miss, lack, without,
    w/o and repr anywhere, also inside a longer word. *)
Theorem completeness_is_substring_search
    (holdings holdings_nonpublic_notes holdings_public_notes : pyval) :
  check_holdings_data_for_magic_words holdings holdings_nonpublic_notes
    holdings_public_notes "completeness" = Ret "1"
  <-> exists segment word,
        In segment [holdings; holdings_nonpublic_notes; holdings_public_notes]
        /\ In word ["inc"; "compl"; "miss"; "lack"; "without"; "w/o"; "repr"]
        /\ truthy segment = true
        /\ contains word (lower (py_str segment)) = true.
Proof.
  unfold check_holdings_data_for_magic_words.
  rewrite (scan_segments_known (map Re.lit
             ["inc"; "compl"; "miss"; "lack"; "without"; "w/o"; "repr"]))
    by (vm_compute; reflexivity).
  destruct (existsb _ _) eqn:E.
  - split; [intros _ | reflexivity].
    apply existsb_exists in E. destruct E as (seg & Hin & Hm).
    unfold segment_matches in Hm. apply andb_prop in Hm as [Ht Hs].
    apply scan_fragments_true in Hs. destruct Hs as (frag & Hfi & Hs).
    apply in_map_iff in Hfi. destruct Hfi as (word & <- & Hw).
    apply search_lit in Hs. exists seg, word. auto.
  - split; [discriminate |].
    intros (seg & word & Hin & Hw & Ht & Hc). exfalso.
    assert (Hex : existsb (segment_matches (map Re.lit
                    ["inc"; "compl"; "miss"; "lack"; "without"; "w/o"; "repr"]))
                    [holdings; holdings_nonpublic_notes; holdings_public_notes]
                  = true).
    { apply existsb_exists. exists seg. split; [exact Hin |].
      unfold segment_matches. rewrite Ht. cbn [andb].
      apply scan_fragments_true. exists (Re.lit word).
      split; [now apply in_map | now apply search_lit]. }
    congruence.
Qed.

Lemma any_of_three (f : pyval -> bool) (a b c : pyval) :
  existsb f [a; b; c] = existsb f [b; a; c]
  /\ existsb f [a; b; c] = existsb f [a; c; b].
Proof. simpl. destruct (f a), (f b), (f c); auto. Qed.

(** X7. The order of the three fields does not matter to the classifier,
    whatever the search_type: exchanging two of them changes neither the
    marker returned nor whether KeyError is raised. *)
Theorem magic_words_order_irrelevant (a b c : pyval) (search_type : string) :
  check_holdings_data_for_magic_words a b c search_type
  = check_holdings_data_for_magic_words b a c search_type
  /\ check_holdings_data_for_magic_words a b c search_type
     = check_holdings_data_for_magic_words a c b search_type.
Proof.
  unfold check_holdings_data_for_magic_words.
  destruct (search_data !! search_type) as [fragments|] eqn:Hk.
  - rewrite !(scan_segments_known fragments _ _ Hk).
    destruct (any_of_three (segment_matches fragments) a b c) as [-> E].
    split; [reflexivity |]. now rewrite <- E.
  - rewrite !(scan_segments_unknown _ _ Hk).
    destruct (any_of_three truthy a b c) as [-> E].
    split; [reflexivity |]. now rewrite <- E.
Qed.

Lemma lower_empty (s : string) : lower s = "" <-> s = "".
Proof. destruct s; simpl; split; congruence. Qed.

Lemma truthy_lower (s s' : string) :
  lower s = lower s' -> truthy (PyStr s) = truthy (PyStr s').
Proof.
  intros H. simpl. destruct s, s'; try reflexivity; discriminate H.
Qed.

(** X8. The classifier does not tell upper case from lower case: fields that
    are strings and agree once lower-cased get the same answer. *)
Theorem magic_words_ignore_case (a b c a' b' c' search_type : string) :
  lower a = lower a' -> lower b = lower b' -> lower c = lower c' ->
  check_holdings_data_for_magic_words (PyStr a) (PyStr b) (PyStr c) search_type
  = check_holdings_data_for_magic_words (PyStr a') (PyStr b') (PyStr c')
      search_type.
Proof.
  intros Ha Hb Hc. unfold check_holdings_data_for_magic_words.
  destruct (search_data !! search_type) as [fragments|] eqn:Hk.
  - rewrite !(scan_segments_known fragments _ _ Hk). cbn [existsb].
    unfold segment_matches. cbn [py_str].
    rewrite (truthy_lower _ _ Ha), (truthy_lower _ _ Hb),
      (truthy_lower _ _ Hc), Ha, Hb, Hc. reflexivity.
  - rewrite !(scan_segments_unknown _ _ Hk). cbn [existsb].
    rewrite (truthy_lower _ _ Ha), (truthy_lower _ _ Hb),
      (truthy_lower _ _ Hc). reflexivity.
Qed.

Lemma magic_words_ignore_case_witness :
  check_holdings_data_for_magic_words (PyStr "BOUND WITH v.2") (PyStr "")
    (PyStr "Lacks v.3") "binding"
  = check_holdings_data_for_magic_words (PyStr "Bound with V.2") (PyStr "")
      (PyStr "LACKS V.3") "binding".
Proof.
  apply (magic_words_ignore_case "BOUND WITH v.2" "" "Lacks v.3"
           "Bound with V.2" "" "LACKS V.3" "binding"); reflexivity.
Defined.

(** ** The unused-filename search ends, on a free path *)

Lemma unused_loop_more_fuel (isfile : string -> bool)
    (path_base base_filename file_extension full_filename : string)
    (fuel : nat) :
  forall fuel' n0 r, (fuel <= fuel')%nat ->
    unused_loop isfile fuel path_base base_filename file_extension
      full_filename n0 = Some r ->
    unused_loop isfile fuel' path_base base_filename file_extension
      full_filename n0 = Some r.
Proof.
  induction fuel as [|fuel IH]; intros fuel' n0 r Hle H; [discriminate H |].
  destruct fuel' as [|fuel']; [lia |].
  simpl in *. destruct (negb _); [exact H |].
  destruct (_ >=? 999); [exact H |].
  apply IH; [lia | exact H].
Qed.

(** X9. The while loop of get_unused_filename is left within 999 turns,
    whatever files exist.  A path it returns is not the path of an existing
    file, and it is the path given exactly when no file exists there. *)
Theorem get_unused_filename_free (isfile : string -> bool) (fuel : nat)
    (file_location : string) :
  (999 <= fuel)%nat ->
  exists r,
    get_unused_filename isfile fuel file_location = Some r
    /\ get_unused_filename isfile 999 file_location = Some r
    /\ forall p, r = Ret p ->
         isfile p = false
         /\ (p = file_location <-> isfile file_location = false).
Proof.
  intros Hfuel. unfold get_unused_filename.
  destruct (isfile file_location) eqn:Hfile; simpl negb; cbv iota.
  - destruct (os_path_split file_location) as [path_base full_filename].
    unfold rindex. destruct (rfind "." full_filename) as [i|].
    + destruct (unused_loop_spec isfile path_base (str_take i full_filename)
                  (str_drop i full_filename) full_filename 999 0
                  ltac:(lia) ltac:(simpl; lia))
        as [(n & Hn & Hfree & _ & E) | (_ & E)].
      * eexists. split; [| split; [exact E |]].
        -- eapply unused_loop_more_fuel; [exact Hfuel | exact E].
        -- intros p [= <-]. split; [exact Hfree |].
           split; [| discriminate]. intros Heq. congruence.
      * eexists. split; [| split; [exact E |]].
        -- eapply unused_loop_more_fuel; [exact Hfuel | exact E].
        -- intros p Hp. discriminate Hp.
    + eexists. split; [reflexivity |]. split; [reflexivity |].
      intros p Hp. discriminate Hp.
  - eexists. split; [reflexivity |]. split; [reflexivity |].
    intros p [= <-]. split; [exact Hfile |]. split; auto.
Qed.

Lemma get_unused_filename_free_witness :
  exists r,
    get_unused_filename two_files 1200 "x.txt" = Some r
    /\ get_unused_filename two_files 999 "x.txt" = Some r
    /\ forall p, r = Ret p ->
         two_files p = false /\ (p = "x.txt" <-> two_files "x.txt" = false).
Proof.
  apply (get_unused_filename_free two_files 1200 "x.txt").
  apply Nat.leb_le. reflexivity.
Defined.

(** ** The institution of a file *)

Lemma lower_char_facts (c : ascii) :
  lower_char (lower_char c) = lower_char c
  /\ Ascii.eqb (lower_char c) "/" = Ascii.eqb c "/"
  /\ Ascii.eqb (lower_char c) "." = Ascii.eqb c ".".
Proof.
  destruct c as [[] [] [] [] [] [] [] []]; vm_compute; repeat split.
Qed.

Lemma lower_idempotent (s : string) : lower (lower s) = lower s.
Proof.
  induction s as [|c s IH]; [reflexivity |]. simpl.
  destruct (lower_char_facts c) as (-> & _). now rewrite IH.
Qed.

Lemma free_of_cons (cs : string) (c : ascii) (s : string) :
  free_of cs (String c s) = negb (Re.one_of cs c) && free_of cs s.
Proof. reflexivity. Qed.

Lemma str_drop_empty (n : nat) : str_drop n "" = "".
Proof. now destruct n. Qed.

Lemma str_drop_lower (n : nat) (s : string) :
  str_drop n (lower s) = lower (str_drop n s).
Proof.
  revert s. induction n as [|n IH]; intros [|c s]; try reflexivity.
  simpl. apply IH.
Qed.

Lemma rfind_from_lower (s : string) :
  forall i last, rfind_from "/" (lower s) i last = rfind_from "/" s i last.
Proof.
  induction s as [|c s IH]; intros i last; [reflexivity |].
  simpl. destruct (lower_char_facts c) as (_ & -> & _). apply IH.
Qed.

Lemma tail_lower (p : string) :
  snd (os_path_split (lower p)) = lower (snd (os_path_split p)).
Proof.
  unfold os_path_split, rfind. simpl snd.
  rewrite rfind_from_lower. apply str_drop_lower.
Qed.

Lemma before_first_dot_lower (s : string) :
  before_first_dot (lower s) = lower (before_first_dot s).
Proof.
  induction s as [|c s IH]; [reflexivity |]. simpl.
  destruct (lower_char_facts c) as (_ & _ & ->).
  destruct (Ascii.eqb c "."); [reflexivity |]. simpl. now rewrite IH.
Qed.

Lemma rfind_from_origin (c : ascii) (s : string) :
  forall i last k, rfind_from c s i last = Some k ->
    last = Some k \/ (i <= k)%nat.
Proof.
  induction s as [|d t IH]; intros i last k H; simpl in H; [now left |].
  apply IH in H. destruct H as [H | H]; [| right; lia].
  destruct (Ascii.eqb d c); [right | now left].
  injection H as <-. lia.
Qed.

Lemma rfind_from_some (c : ascii) (s : string) :
  forall i j, exists k, rfind_from c s i (Some j) = Some k.
Proof.
  induction s as [|d t IH]; intros i j; simpl; [eauto |].
  destruct (Ascii.eqb d c); apply IH.
Qed.

(** What follows the last [c] of [s] holds no [c]. *)
Lemma after_last_free (c : ascii) (s : string) :
  forall i last, (forall j, last = Some j -> (j < i)%nat) ->
    forallb (fun d => negb (Ascii.eqb d c))
      (list_ascii_of_string
         (str_drop (match rfind_from c s i last with
                    | Some k => S k - i
                    | None => 0
                    end) s)) = true.
Proof.
  induction s as [|d t IH]; intros i last Hlast.
  - now rewrite str_drop_empty.
  - simpl rfind_from. destruct (Ascii.eqb d c) eqn:Hd.
    + destruct (rfind_from_some c t (S i) i) as (k & Hk).
      specialize (IH (S i) (Some i) ltac:(intros j [= <-]; lia)).
      rewrite Hk in *.
      destruct (rfind_from_origin _ _ _ _ _ Hk) as [[= <-] | Hge].
      * replace (S i - i)%nat with 1%nat by lia.
        replace (S i - S i)%nat with 0%nat in IH by lia. exact IH.
      * replace (S k - i)%nat with (S (S k - S i)) by lia. exact IH.
    + specialize (IH (S i) last
                    ltac:(intros j Hj; specialize (Hlast j Hj); lia)).
      destruct (rfind_from c t (S i) last) as [k|] eqn:Hk.
      * destruct (rfind_from_origin _ _ _ _ _ Hk) as [Hl | Hge].
        -- specialize (Hlast k Hl).
           replace (S k - i)%nat with 0%nat by lia.
           replace (S k - S i)%nat with 0%nat in IH by lia.
           simpl in *. now rewrite Hd, IH.
        -- replace (S k - i)%nat with (S (S k - S i)) by lia. exact IH.
      * simpl in *. now rewrite Hd, IH.
Qed.

Lemma forallb_implies {A : Type} (f g : A -> bool) (l : list A) :
  (forall x, f x = true -> g x = true) ->
  forallb f l = true -> forallb g l = true.
Proof.
  intros Hfg. induction l as [|x l IH]; [reflexivity |]. simpl.
  intros [Hx Hl]%andb_prop. now rewrite (Hfg x Hx), IH.
Qed.

Lemma tail_free_of_slash (p : string) :
  free_of "/" (snd (os_path_split p)) = true.
Proof.
  unfold os_path_split, rfind. simpl snd.
  pose proof (after_last_free "/" p 0 None ltac:(discriminate)) as H.
  destruct (rfind_from "/" p 0 None) as [k|];
    [replace (S k - 0)%nat with (S k) in H by lia |];
    (eapply forallb_implies; [| exact H]);
    intros d Hd; unfold Re.one_of; simpl; now rewrite orb_false_r.
Qed.

Lemma before_first_dot_free (s : string) :
  free_of "/" s = true -> free_of "./" (before_first_dot s) = true.
Proof.
  induction s as [|c s IH]; [reflexivity |].
  rewrite free_of_cons. intros [Hc Hs]%andb_prop. simpl.
  destruct (Ascii.eqb c ".") eqn:Hd; [reflexivity |].
  rewrite free_of_cons, (IH Hs), andb_true_r.
  unfold Re.one_of in *. simpl in *. rewrite Hd.
  rewrite orb_false_r in Hc. now destruct (Ascii.eqb c "/").
Qed.

Lemma lower_free (s : string) :
  free_of "./" s = true -> free_of "./" (lower s) = true.
Proof.
  induction s as [|c s IH]; [reflexivity |]. simpl lower.
  rewrite !free_of_cons. intros [Hc Hs]%andb_prop.
  rewrite (IH Hs), andb_true_r. unfold Re.one_of in *. simpl in *.
  destruct (lower_char_facts c) as (_ & -> & ->). exact Hc.
Qed.

Lemma rfind_from_free (c : ascii) (s : string) :
  forallb (fun d => negb (Ascii.eqb d c)) (list_ascii_of_string s) = true ->
  forall i last, rfind_from c s i last = last.
Proof.
  induction s as [|d t IH]; intros H i last; [reflexivity |].
  simpl in *. apply andb_prop in H as [Hd Ht].
  apply negb_true_iff in Hd. rewrite Hd. now apply IH.
Qed.

Lemma before_first_dot_id (s : string) :
  free_of "./" s = true -> before_first_dot s = s.
Proof.
  induction s as [|c s IH]; [reflexivity |].
  rewrite free_of_cons. intros [Hc Hs]%andb_prop. simpl.
  unfold Re.one_of in Hc. simpl in Hc.
  destruct (Ascii.eqb c "."); [discriminate Hc |]. now rewrite IH.
Qed.

Lemma tail_id (s : string) :
  free_of "./" s = true -> snd (os_path_split s) = s.
Proof.
  intros H. unfold os_path_split, rfind. simpl snd.
  rewrite rfind_from_free; [reflexivity |].
  eapply forallb_implies; [| exact H].
  intros d. unfold Re.one_of. simpl.
  destruct (Ascii.eqb d "."), (Ascii.eqb d "/"); auto.
Qed.

(** X10. The institution name derived from a filename holds no period and
    no slash, and lower-casing leaves it as it is. *)
Theorem institution_name_shape (filename : string) :
  free_of "./" (get_institution_name_from_filename filename) = true
  /\ lower (get_institution_name_from_filename filename)
     = get_institution_name_from_filename filename.
Proof.
  unfold get_institution_name_from_filename. split.
  - apply lower_free, before_first_dot_free, tail_free_of_slash.
  - apply lower_idempotent.
Qed.

(** X11. Deriving the institution name is idempotent: the name of a name is
    that name.  It is blind to case on a filename of ASCII characters, on
    which lower-casing goes character by character: such a filename and its
    lower-cased form have the same name. *)
Theorem institution_name_idempotent (filename : string) :
  get_institution_name_from_filename
    (get_institution_name_from_filename filename)
  = get_institution_name_from_filename filename
  /\ (is_ascii_text filename = true ->
      get_institution_name_from_filename (lower filename)
      = get_institution_name_from_filename filename).
Proof.
  split.
  - assert (Hfree : free_of "./" (get_institution_name_from_filename filename)
                    = true).
    { unfold get_institution_name_from_filename.
      apply lower_free, before_first_dot_free, tail_free_of_slash. }
    unfold get_institution_name_from_filename at 1.
    rewrite (tail_id _ Hfree), (before_first_dot_id _ Hfree).
    unfold get_institution_name_from_filename. apply lower_idempotent.
  - intros _. unfold get_institution_name_from_filename.
    now rewrite tail_lower, before_first_dot_lower, lower_idempotent.
Qed.

Lemma institution_name_idempotent_witness :
  get_institution_name_from_filename (lower "Input/ABC.Holdings.TSV")
  = get_institution_name_from_filename "Input/ABC.Holdings.TSV".
Proof.
  apply (proj2 (institution_name_idempotent "Input/ABC.Holdings.TSV")).
  reflexivity.
Defined.

(** ** The abbreviation of an input file *)

Lemma starts_with_cons (c x : ascii) (p s : string) :
  starts_with (String c p) (String x s) = Ascii.eqb c x && starts_with p s.
Proof. reflexivity. Qed.

(** Replacing one character by another goes character by character. *)
Lemma replace_char_cons (c d x : ascii) (t : string) :
  replace (String c "") (String d "") (String x t)
  = String (if Ascii.eqb c x then d else x)
      (replace (String c "") (String d "") t).
Proof.
  unfold replace. cbn [replace_from]. rewrite starts_with_cons.
  cbn [starts_with]. rewrite andb_true_r.
  destruct (Ascii.eqb c x); reflexivity.
Qed.

Lemma one_of_cons (c : ascii) (cs : string) (x : ascii) :
  Re.one_of (String c cs) x = Ascii.eqb x c || Re.one_of cs x.
Proof. reflexivity. Qed.

Lemma one_of_nil (x : ascii) : Re.one_of "" x = false.
Proof. reflexivity. Qed.

Lemma replace_period_free (s : string) :
  free_of "." (replace "." "_" s) = true.
Proof.
  induction s as [|x t IH]; [reflexivity |].
  rewrite replace_char_cons, free_of_cons, IH, andb_true_r.
  rewrite one_of_cons, one_of_nil, orb_false_r.
  destruct (Ascii.eqb "." x) eqn:E; [reflexivity |].
  rewrite Ascii.eqb_sym. now rewrite E.
Qed.

Lemma replace_space_free (s : string) :
  free_of "." s = true -> free_of ". " (replace " " "_" s) = true.
Proof.
  induction s as [|x t IH]; [reflexivity |].
  rewrite free_of_cons. intros [Hx Ht]%andb_prop.
  rewrite replace_char_cons, free_of_cons, (IH Ht), andb_true_r.
  rewrite one_of_cons, one_of_nil, orb_false_r in Hx.
  rewrite !one_of_cons, one_of_nil, orb_false_r.
  destruct (Ascii.eqb " " x) eqn:E; [reflexivity |].
  apply negb_true_iff in Hx. rewrite Hx.
  rewrite Ascii.eqb_sym. now rewrite E.
Qed.

Lemma before_first_underscore_free (s : string) :
  free_of ". " s = true -> free_of "._ " (before_first "_" s) = true.
Proof.
  induction s as [|x t IH]; [reflexivity |].
  rewrite free_of_cons. intros [Hx Ht]%andb_prop. cbn [before_first].
  destruct (Ascii.eqb x "_") eqn:E; [reflexivity |].
  rewrite free_of_cons, (IH Ht), andb_true_r.
  rewrite !one_of_cons, one_of_nil, orb_false_r in Hx.
  rewrite !one_of_cons, one_of_nil, orb_false_r, E.
  apply negb_true_iff in Hx. apply orb_false_elim in Hx as [-> ->].
  reflexivity.
Qed.

(** X12. For a filename without the autogenerated suffix, the abbreviation
    holds no period, no underscore and no space. *)
Theorem abbrev_without_separators (input_file : string) :
  contains autogenerated_suffix input_file = false ->
  free_of "._ " (get_abbrev_from_input_filename input_file) = true.
Proof.
  intros H. unfold get_abbrev_from_input_filename. rewrite H.
  apply before_first_underscore_free, replace_space_free, replace_period_free.
Qed.

Lemma abbrev_without_separators_witness :
  free_of "._ " (get_abbrev_from_input_filename "DATA.ABC holdings.2020.tsv")
  = true.
Proof.
  apply (abbrev_without_separators "DATA.ABC holdings.2020.tsv").
  reflexivity.
Defined.

Lemma replace_suffix_after (a : string) :
  free_of "_" a = true ->
  replace autogenerated_suffix "" (a +:+ autogenerated_suffix) = a.
Proof.
  induction a as [|x t IH]; [intros _; reflexivity |].
  rewrite free_of_cons. intros [Hx Ht]%andb_prop.
  rewrite one_of_cons, one_of_nil, orb_false_r in Hx.
  apply negb_true_iff in Hx.
  rewrite append_cons. unfold replace in *. cbn [replace_from].
  unfold autogenerated_suffix at 1. rewrite starts_with_cons.
  rewrite Ascii.eqb_sym, Hx. cbn [andb]. now rewrite (IH Ht).
Qed.

Lemma contains_suffix (a p : string) : contains p (a +:+ p) = true.
Proof.
  apply contains_skip. rewrite <- (append_empty_r p) at 2.
  apply contains_here.
Qed.

Lemma free_of_fewer (s : string) :
  free_of "._ " s = true -> free_of "_" s = true.
Proof.
  apply forallb_implies. intros x. rewrite !one_of_cons, one_of_nil.
  destruct (Ascii.eqb x "."), (Ascii.eqb x "_"); auto.
Qed.

(** X13. The autogenerated suffix is taken off again: for a text without an
    underscore, the abbreviation of the text followed by
    _AUTOGENERATED_FILE.tsv is the text; in particular the abbreviation of a
    file without the suffix, followed by the suffix, has that abbreviation. *)
Theorem abbrev_of_autogenerated (abbrev input_file : string) :
  (free_of "_" abbrev = true ->
   get_abbrev_from_input_filename (abbrev +:+ autogenerated_suffix) = abbrev)
  /\ (contains autogenerated_suffix input_file = false ->
      get_abbrev_from_input_filename
        (get_abbrev_from_input_filename input_file +:+ autogenerated_suffix)
      = get_abbrev_from_input_filename input_file).
Proof.
  assert (Hround : forall a, free_of "_" a = true ->
            get_abbrev_from_input_filename (a +:+ autogenerated_suffix) = a).
  { intros a Ha. unfold get_abbrev_from_input_filename.
    rewrite contains_suffix. now apply replace_suffix_after. }
  split; [apply Hround |].
  intros H. apply Hround, free_of_fewer.
  unfold get_abbrev_from_input_filename. rewrite H.
  apply before_first_underscore_free, replace_space_free, replace_period_free.
Qed.

Lemma abbrev_of_autogenerated_witness :
  get_abbrev_from_input_filename "UMich_AUTOGENERATED_FILE.tsv" = "UMich"
  /\ get_abbrev_from_input_filename
       (get_abbrev_from_input_filename "DATA.UMich.2021 holdings.mrk"
        +:+ autogenerated_suffix)
     = get_abbrev_from_input_filename "DATA.UMich.2021 holdings.mrk".
Proof.
  split.
  - apply (proj1 (abbrev_of_autogenerated "UMich" "")). reflexivity.
  - apply (proj2 (abbrev_of_autogenerated ""
                    "DATA.UMich.2021 holdings.mrk")). reflexivity.
Defined.

(** ** Field numbers *)

Lemma length_zeros (n : nat) : String.length (zeros n) = n.
Proof. induction n; simpl; auto. Qed.

Lemma all_digits_zeros (n : nat) : all_digits (zeros n) = true.
Proof. induction n; auto. Qed.

Lemma all_digits_isdigit (s : string) :
  s <> "" -> all_digits s = true -> isdigit s = true.
Proof.
  intros Hne Hd. unfold isdigit.
  destruct s as [|c s]; [congruence |]. cbn [String.eqb negb andb].
  eapply forallb_implies; [| exact Hd].
  intros x Hx. unfold is_py_digit. now rewrite Hx.
Qed.

(** zfill on a text that starts with a digit puts zeros before it. *)
Lemma zfill_digits (width : nat) (s : string) :
  s <> "" -> all_digits s = true ->
  zfill width s = zeros (width - String.length s) +:+ s.
Proof.
  intros Hne Hd. unfold zfill.
  destruct (width - String.length s)%nat as [|k] eqn:E; [reflexivity |].
  destruct s as [|c t]; [congruence |].
  rewrite all_digits_cons in Hd. apply andb_prop in Hd as [Hc _].
  destruct (digit_facts c Hc) as (_ & -> & -> & _). reflexivity.
Qed.

Lemma int_of_str_digits (s : string) :
  s <> "" -> all_digits s = true -> int_of_str s = int_digits s 0.
Proof.
  intros Hne Hd. unfold int_of_str. rewrite (rstrip_digits s Hd).
  destruct s as [|c t]; [congruence |].
  rewrite all_digits_cons in Hd. apply andb_prop in Hd as [Hc _].
  destruct (digit_facts c Hc) as (Hsp & Hm & Hp & _).
  cbn [int_lstrip]. rewrite Hsp, Hm, Hp. cbn [int_body int_digits].
  rewrite Hc. reflexivity.
Qed.

Lemma int_digits_zeros (n : nat) (s : string) :
  int_digits (zeros n +:+ s) 0 = int_digits s 0.
Proof.
  induction n as [|n IH]; [reflexivity |].
  cbn [zeros]. rewrite append_cons. cbn [int_digits].
  change (is_digit "0") with true. cbv iota.
  change (10 * 0 + digit_val "0") with 0. exact IH.
Qed.

(** X14. On a non-empty string of decimal digits, left_pad_field_number puts
    zeros before the digits until there are three characters: the result has
    max(3, len) characters, all digits, ends with the digits given, and
    int() reads it as it reads the string given. *)
Theorem left_pad_digits (s : string) :
  s <> "" -> all_digits s = true ->
  left_pad_field_number (PyStr s) = zeros (3 - String.length s) +:+ s
  /\ String.length (left_pad_field_number (PyStr s))
     = Nat.max 3 (String.length s)
  /\ all_digits (left_pad_field_number (PyStr s)) = true
  /\ int_of_str (left_pad_field_number (PyStr s)) = int_of_str s.
Proof.
  intros Hne Hd.
  assert (E : left_pad_field_number (PyStr s)
              = zeros (3 - String.length s) +:+ s).
  { unfold left_pad_field_number. cbn [truthy py_str].
    destruct s as [|c t] eqn:Hs; [congruence |]. cbn [String.eqb negb].
    rewrite <- Hs in *. rewrite (all_digits_isdigit s Hne Hd). cbn [negb].
    now apply zfill_digits. }
  assert (Hd' : all_digits (zeros (3 - String.length s) +:+ s) = true).
  { now rewrite all_digits_append, all_digits_zeros, Hd. }
  rewrite E. split; [reflexivity |]. split; [| split; [exact Hd' |]].
  - rewrite length_append, length_zeros. lia.
  - rewrite int_of_str_digits; [| | exact Hd'].
    + rewrite int_digits_zeros. symmetry. now apply int_of_str_digits.
    + intros Habs. apply (f_equal String.length) in Habs.
      rewrite length_append in Habs. destruct s; [congruence |].
      simpl in Habs. lia.
Qed.

Lemma left_pad_digits_witness :
  left_pad_field_number (PyStr "4") = "004"
  /\ String.length (left_pad_field_number (PyStr "4")) = 3%nat
  /\ all_digits (left_pad_field_number (PyStr "4")) = true
  /\ int_of_str (left_pad_field_number (PyStr "4")) = int_of_str "4".
Proof.
  apply (left_pad_digits "4"); [discriminate | reflexivity].
Defined.

(** X15. The numbers that the database made of the tags are made tags
    again: for an int from 1 to 999 the result is its numeral in three
    digits.  The int 0 is lost: it counts as no field number and gives the
    empty string, not "000". *)
Theorem left_pad_int (n : Z) :
  1 <= n <= 999 ->
  String.length (left_pad_field_number (PyInt n)) = 3%nat
  /\ all_digits (left_pad_field_number (PyInt n)) = true
  /\ int_of_str (left_pad_field_number (PyInt n)) = Some n
  /\ left_pad_field_number (PyInt 0) = "".
Proof.
  intros Hn.
  pose (check := fun k : nat =>
    let n := 1 + Z.of_nat k in
    let r := left_pad_field_number (PyInt n) in
    (String.length r =? 3)%nat && all_digits r
    && match int_of_str r with Some z => z =? n | None => false end).
  assert (Hall : forallb check (seq 0 (Z.to_nat 999)) = true)
    by (vm_compute; reflexivity).
  assert (Hk : check (Z.to_nat (n - 1)) = true).
  { eapply forallb_forall in Hall; [exact Hall |]. apply in_seq. lia. }
  unfold check in Hk. cbv zeta in Hk.
  replace (1 + Z.of_nat (Z.to_nat (n - 1))) with n in Hk by lia.
  apply andb_prop in Hk as [Hk Hv]. apply andb_prop in Hk as [Hl Hd].
  apply Nat.eqb_eq in Hl.
  split; [exact Hl |]. split; [exact Hd |]. split; [| reflexivity].
  destruct (int_of_str _) as [z|]; [| discriminate Hv].
  apply Z.eqb_eq in Hv. now subst z.
Qed.

Lemma left_pad_int_witness :
  String.length (left_pad_field_number (PyInt 35)) = 3%nat
  /\ all_digits (left_pad_field_number (PyInt 35)) = true
  /\ int_of_str (left_pad_field_number (PyInt 35)) = Some 35
  /\ left_pad_field_number (PyInt 0) = "".
Proof.
  apply (left_pad_int 35). split; [apply Z.leb_le | apply Z.leb_le];
    reflexivity.
Defined.

Lemma py_digit_no_sign (c : ascii) :
  is_py_digit c = true ->
  Ascii.eqb c "+" = false /\ Ascii.eqb c "-" = false.
Proof.
  destruct c as [[] [] [] [] [] [] [] []]; vm_compute;
    intros H; try discriminate H; split; reflexivity.
Qed.

Lemma truthy_str_nonempty (v : pyval) :
  truthy v = true -> py_str v <> "".
Proof.
  destruct v as [|z|s]; simpl; intros H; [discriminate | |].
  - unfold NilZero.string_of_int.
    destruct (Z.to_int z) as [u|u]; [| discriminate].
    unfold NilZero.string_of_uint. destruct u; discriminate.
  - destruct s; [discriminate H | discriminate].
Qed.

Lemma truthy_nonempty (s : string) : s <> "" -> truthy (PyStr s) = true.
Proof. destruct s; [congruence | reflexivity]. Qed.

Lemma zfill_isdigit (s : string) :
  isdigit s = true ->
  zfill 3 s = zeros (3 - String.length s) +:+ s
  /\ isdigit (zfill 3 s) = true
  /\ (3 <= String.length (zfill 3 s))%nat.
Proof.
  unfold isdigit. intros [Hne Hd]%andb_prop.
  destruct s as [|c t]; [discriminate Hne |].
  assert (E : zfill 3 (String c t)
              = zeros (3 - String.length (String c t)) +:+ String c t).
  { unfold zfill.
    destruct (3 - String.length (String c t))%nat as [|k]; [reflexivity |].
    simpl in Hd. apply andb_prop in Hd as [Hc _].
    destruct (py_digit_no_sign c Hc) as [-> ->]. reflexivity. }
  rewrite E. split; [reflexivity |]. split.
  - generalize (3 - String.length (String c t))%nat. intros k.
    induction k as [|k IH].
    + rewrite append_nil. cbn [String.eqb negb andb]. exact Hd.
    + cbn [zeros]. rewrite append_cons. cbn [String.eqb negb andb].
      cbn [list_ascii_of_string forallb].
      change (is_py_digit "0") with true. cbn [andb].
      destruct (zeros k +:+ String c t) eqn:Ek; [reflexivity |].
      rewrite <- Ek. rewrite <- Ek in IH.
      destruct (zeros k +:+ String c t); [discriminate Ek | exact IH].
  - rewrite length_append, length_zeros. lia.
Qed.

Lemma zfill_wide (s : string) :
  (3 <= String.length s)%nat -> zfill 3 s = s.
Proof.
  intros H. unfold zfill.
  now replace (3 - String.length s)%nat with 0%nat by lia.
Qed.

(** X16. Repairing a field number twice is repairing it once: whatever the
    value given, left_pad_field_number leaves its own result as it is. *)
Theorem left_pad_idempotent (field_number : pyval) :
  left_pad_field_number (PyStr (left_pad_field_number field_number))
  = left_pad_field_number field_number.
Proof.
  unfold left_pad_field_number at 2 3.
  destruct (truthy field_number) eqn:Ht; cbn [negb]; [| reflexivity].
  pose proof (truthy_str_nonempty _ Ht) as Hne.
  destruct (isdigit (py_str field_number)) eqn:Hd; cbn [negb].
  - destruct (zfill_isdigit _ Hd) as (_ & Hd' & Hlen).
    unfold left_pad_field_number. cbn [py_str].
    rewrite truthy_nonempty, Hd'; [cbn [negb]; now apply zfill_wide |].
    intros Habs. rewrite Habs in Hlen. simpl in Hlen. lia.
  - unfold left_pad_field_number. cbn [py_str].
    rewrite (truthy_nonempty _ Hne), Hd. reflexivity.
Qed.

(** ** The finder across calls *)

Lemma get_fields_flag (self : FieldsAndIssuesFinder) (filename : string) :
  snd (get_fields_for_individual_file self filename)
  = set_use_validator_config self
      (fields_truthy (per_file_fields (validator_config self) !! filename)).
Proof.
  unfold get_fields_for_individual_file, get_input_fields.
  destruct (fields_truthy _); [reflexivity |]. cbn [bulk_config
    set_use_validator_config].
  destruct (bulk_config_data _ !! _); [reflexivity |].
  destruct (associated_names_map _ !! _); [| reflexivity].
  now destruct (bulk_config_data _ !! _).
Qed.

(** X17. The flag left by get_fields_for_individual_file decides the issues
    of whichever file is asked about next.  After a file with an override,
    any file whose institution is not an associated name gets the global or
    built-in issues, also when its institution has issues of its own in the
    bulk configuration; after a file without an override, such a file gets
    the issues of its institution. *)
Theorem issues_follow_last_fields_call (self : FieldsAndIssuesFinder)
    (first next : string) (entry : BulkEntry) :
  next <> "" ->
  bulk_config_data (bulk_config self)
    !! get_institution_name_from_filename next = Some entry ->
  associated_names_map (bulk_config self)
    !! get_institution_name_from_filename next = None ->
  (fields_truthy (per_file_fields (validator_config self) !! first) = true ->
   get_issues_for_individual_file
     (snd (get_fields_for_individual_file self first)) (Some next)
   = global_or_default_issues (validator_config self))
  /\ (fields_truthy (per_file_fields (validator_config self) !! first) = false ->
      get_issues_for_individual_file
        (snd (get_fields_for_individual_file self first)) (Some next)
      = (Ret (bulk_disqualifying_issues entry),
         [using_issues_of (get_institution_name_from_filename next)])).
Proof.
  intros Hne Hb Ha. rewrite get_fields_flag.
  destruct next as [|c t]; [congruence |].
  split; intros ->; unfold get_issues_for_individual_file;
    cbn [filename_given set_use_validator_config bulk_config
         use_validator_config validator_config negb];
    rewrite Hb; [now rewrite Ha | reflexivity].
Qed.

Lemma issues_follow_last_fields_call_witness :
  get_issues_for_individual_file
    (snd (get_fields_for_individual_file
            (new_finder example_validator_config example_bulk_config)
            "abc.tsv"))
    (Some "Consortium.mrk")
  = (Ret global_issues, [])
  /\ get_issues_for_individual_file
       (snd (get_fields_for_individual_file
               (new_finder example_validator_config example_bulk_config)
               "other.tsv"))
       (Some "Consortium.mrk")
     = (Ret consortium_issues, [using_issues_of "consortium"]).
Proof.
  assert (Hne : "Consortium.mrk" <> "") by discriminate.
  destruct (issues_follow_last_fields_call
              (new_finder example_validator_config example_bulk_config)
              "abc.tsv" "Consortium.mrk"
              {| bulk_input_fields := ["004"; "035"];
                 bulk_disqualifying_issues := consortium_issues |}
              Hne eq_refl eq_refl) as [Hover _].
  destruct (issues_follow_last_fields_call
              (new_finder example_validator_config example_bulk_config)
              "other.tsv" "Consortium.mrk"
              {| bulk_input_fields := ["004"; "035"];
                 bulk_disqualifying_issues := consortium_issues |}
              Hne eq_refl eq_refl) as [_ Hplain].
  split.
  - rewrite (Hover eq_refl). vm_compute. reflexivity.
  - exact (Hplain eq_refl).
Defined.

(** X18. Without an override, the fields and the issues of a file come from
    one and the same entry of the bulk configuration: the entry stored under
    the institution name of the file or, when there is none, the entry
    stored under the program that the name is associated with.  When the
    name is neither in the bulk configuration nor an associated name, the
    fields are None and the issues are the global or built-in ones. *)
Theorem fields_and_issues_of_one_institution (self : FieldsAndIssuesFinder)
    (filename : string) :
  filename <> "" ->
  aliases_resolve (bulk_config self) = true ->
  fields_truthy (per_file_fields (validator_config self) !! filename) = false ->
  (exists key entry,
     bulk_config_data (bulk_config self) !! key = Some entry
     /\ (key = get_institution_name_from_filename filename
         \/ (bulk_config_data (bulk_config self)
               !! get_institution_name_from_filename filename = None
             /\ associated_names_map (bulk_config self)
                  !! get_institution_name_from_filename filename = Some key))
     /\ fst (get_fields_for_individual_file self filename)
        = Ret (Some (bulk_input_fields entry))
     /\ fst (get_issues_for_individual_file
               (snd (get_fields_for_individual_file self filename))
               (Some filename))
        = Ret (bulk_disqualifying_issues entry))
  \/ (bulk_config_data (bulk_config self)
        !! get_institution_name_from_filename filename = None
      /\ associated_names_map (bulk_config self)
           !! get_institution_name_from_filename filename = None
      /\ fst (get_fields_for_individual_file self filename) = Ret None
      /\ get_issues_for_individual_file
           (snd (get_fields_for_individual_file self filename))
           (Some filename)
         = global_or_default_issues (validator_config self)).
Proof.
  intros Hne Hal Hno. rewrite get_fields_flag, Hno.
  destruct filename as [|c t]; [congruence |].
  unfold get_fields_for_individual_file, get_issues_for_individual_file,
    get_input_fields.
  rewrite Hno.
  cbn [filename_given set_use_validator_config bulk_config
       use_validator_config validator_config negb fst].
  destruct (bulk_config_data _ !! get_institution_name_from_filename _)
    as [entry|] eqn:Hb.
  - left. exists (get_institution_name_from_filename (String c t)), entry.
    split; [exact Hb |]. split; [now left |]. split; reflexivity.
  - destruct (associated_names_map _ !! _) as [p|] eqn:Ha.
    + destruct (aliases_resolve_lookup _ _ _ Hal Ha) as [entry Hp].
      left. exists p, entry. rewrite Hp.
      split; [reflexivity |]. split; [right; now split |]. split; reflexivity.
    + right. split; [reflexivity |]. split; [reflexivity |]. split; reflexivity.
Qed.

Lemma fields_and_issues_of_one_institution_witness :
  exists key entry,
    bulk_config_data example_bulk_config !! key = Some entry
    /\ fst (get_fields_for_individual_file
              (new_finder bare_validator_config example_bulk_config) "abc.tsv")
       = Ret (Some (bulk_input_fields entry))
    /\ fst (get_issues_for_individual_file
              (snd (get_fields_for_individual_file
                      (new_finder bare_validator_config example_bulk_config)
                      "abc.tsv"))
              (Some "abc.tsv"))
       = Ret (bulk_disqualifying_issues entry).
Proof.
  assert (Hne : "abc.tsv" <> "") by discriminate.
  destruct (fields_and_issues_of_one_institution
              (new_finder bare_validator_config example_bulk_config) "abc.tsv"
              Hne eq_refl eq_refl)
    as [(key & entry & Hk & _ & Hf & Hi) | (_ & Ha & _)].
  - exists key, entry. split; [exact Hk |]. split; [exact Hf | exact Hi].
  - vm_compute in Ha. discriminate Ha.
Defined.

(** X19. With associated names that resolve, get_fields_for_individual_file
    raises nothing.  It returns None exactly when the file has no override
    and its institution is neither in the bulk configuration nor an
    associated name; and without an override an institution of the bulk
    configuration gives its own fields, whatever names are associated. *)
Theorem get_fields_none_exactly (self : FieldsAndIssuesFinder)
    (filename : string) :
  aliases_resolve (bulk_config self) = true ->
  exists fields,
    fst (get_fields_for_individual_file self filename) = Ret fields
    /\ (fields = None <->
        fields_truthy (per_file_fields (validator_config self) !! filename)
        = false
        /\ bulk_config_data (bulk_config self)
             !! get_institution_name_from_filename filename = None
        /\ associated_names_map (bulk_config self)
             !! get_institution_name_from_filename filename = None)
    /\ (forall entry,
          fields_truthy (per_file_fields (validator_config self) !! filename)
          = false ->
          bulk_config_data (bulk_config self)
            !! get_institution_name_from_filename filename = Some entry ->
          fields = Some (bulk_input_fields entry)).
Proof.
  intros Hal. unfold get_fields_for_individual_file, get_input_fields.
  destruct (per_file_fields _ !! filename) as [[|x xs]|] eqn:Hov;
    cbn [fields_truthy bulk_config set_use_validator_config fst].
  2: { eexists. split; [reflexivity |]. split.
       - split; [discriminate | intros [H _]; discriminate H].
       - intros entry H. discriminate H. }
  all: destruct (bulk_config_data _ !! _) as [entry|] eqn:Hb;
    [ eexists; split; [reflexivity |]; split;
      [ split; [discriminate | intros (_ & H & _); discriminate H]
      | intros e _ [= <-]; reflexivity ]
    | destruct (associated_names_map _ !! _) as [p|] eqn:Ha;
      [ destruct (aliases_resolve_lookup _ _ _ Hal Ha) as [e ->];
        eexists; split; [reflexivity |]; split;
        [ split; [discriminate | intros (_ & _ & H); discriminate H]
        | intros e' _ H; discriminate H ]
      | eexists; split; [reflexivity |]; split;
        [ split; [auto | reflexivity]
        | intros e' _ H; discriminate H ] ] ].
Qed.

Lemma get_fields_none_exactly_witness :
  exists fields,
    fst (get_fields_for_individual_file
           (new_finder example_validator_config example_bulk_config)
           "unknown.tsv") = Ret fields
    /\ fields = None.
Proof.
  destruct (get_fields_none_exactly
              (new_finder example_validator_config example_bulk_config)
              "unknown.tsv" eq_refl) as (fields & E & [_ Hnone] & _).
  exists fields. split; [exact E |]. apply Hnone.
  repeat split; reflexivity.
Defined.

(** ** The categories that disqualify *)

Lemma active_categories_spec (issues : gmap string bool) (category : string) :
  category ∈ active_categories issues <-> issues !! category = Some true.
Proof.
  unfold active_categories. revert category.
  apply (map_fold_weak_ind
           (fun (r : gset string) (m : gmap string bool) =>
              forall category, category ∈ r <-> m !! category = Some true)).
  - intros category. rewrite lookup_empty.
    split; [intros H; now apply not_elem_of_empty in H | discriminate].
  - intros i x m r Hi IH category.
    destruct (decide (category = i)) as [-> | Hne].
    + rewrite lookup_insert_eq. destruct x.
      * split; [reflexivity | intros _].
        apply elem_of_union_l, elem_of_singleton. reflexivity.
      * rewrite IH, Hi. split; discriminate.
    + rewrite lookup_insert_ne by congruence. destruct x; [| apply IH].
      rewrite elem_of_union, elem_of_singleton, IH.
      split; [intros [H | H]; [congruence | exact H] | now right].
Qed.

(** X20. get_disqualifying_issue_categories returns the names whose flag is
    set in the issues that a finder made anew resolves for the file, and
    logs what that resolution logs.  As the flag of a new finder is clear, a
    file whose institution is in the bulk configuration gets the categories
    of that institution, whatever override the file has. *)
Theorem disqualifying_categories_spec (vc : ValidatorConfig) (bc : BulkConfig)
    (input_file : option string) (issues : gmap string bool) :
  fst (get_issues_for_individual_file (new_finder vc bc) input_file)
  = Ret issues ->
  (exists categories,
     get_disqualifying_issue_categories vc bc input_file
     = (Ret categories,
        snd (get_issues_for_individual_file (new_finder vc bc) input_file))
     /\ forall category,
          category ∈ categories <-> issues !! category = Some true)
  /\ (forall name entry,
        filename_given input_file = Some name ->
        bulk_config_data bc !! get_institution_name_from_filename name
        = Some entry ->
        issues = bulk_disqualifying_issues entry).
Proof.
  intros H. split.
  - unfold get_disqualifying_issue_categories.
    destruct (get_issues_for_individual_file _ input_file) as [r logged].
    simpl in H. subst r. eexists. split; [reflexivity |].
    apply active_categories_spec.
  - intros name entry Hn Hb. unfold get_issues_for_individual_file in H.
    cbn [new_finder bulk_config use_validator_config negb] in H.
    rewrite Hn, Hb in H. cbn [fst] in H. congruence.
Qed.

Lemma disqualifying_categories_spec_witness :
  exists categories,
    get_disqualifying_issue_categories example_validator_config
      example_bulk_config (Some "consortium.2021.mrk")
    = (Ret categories, [using_issues_of "consortium"])
    /\ forall category,
         category ∈ categories <-> consortium_issues !! category = Some true.
Proof.
  exact (proj1 (disqualifying_categories_spec example_validator_config
                  example_bulk_config (Some "consortium.2021.mrk")
                  consortium_issues eq_refl)).
Defined.

(** ** The quick scan of a MARC file *)

Module ScanFacts.
Import Scan.

Lemma count_incr_same (key : string) (d : gmap string nat) :
  count (incr key d) key = S (count d key).
Proof. unfold incr, count at 1. now rewrite lookup_insert_eq. Qed.

Lemma count_incr_other (key key' : string) (d : gmap string nat) :
  key <> key' -> count (incr key d) key' = count d key'.
Proof.
  intros H. unfold incr, count at 1. now rewrite lookup_insert_ne.
Qed.

Ltac counts :=
  repeat first
    [ rewrite count_incr_same
    | rewrite count_incr_other by (apply String.eqb_neq; reflexivity) ].

Section Scanner.

Variable oclc_035 : string -> bool.

(** A record adds one to the categories whose test it passes, and leaves the
    others as they are. *)
Lemma count_record_key (d : gmap string nat) (marc cat : string)
    (test : string -> bool) :
  In (cat, test) (category_tests oclc_035) ->
  count (count_record oclc_035 d marc) cat
  = (count d cat + (if test marc then 1 else 0))%nat.
Proof.
  unfold category_tests. intros H.
  repeat destruct H as [[= <- <-] | H]; [.. | destruct H];
    unfold count_record;
    destruct (contains "=001  " marc), (contains "004  " marc),
      (oclc_035 marc), (contains "=035  " marc), (has_one_of_863 marc),
      (has_one_of_866 marc);
    counts; cbn [orb]; lia.
Qed.

Lemma count_fold (records : list string) :
  forall (d : gmap string nat) (cat : string) (test : string -> bool),
    In (cat, test) (category_tests oclc_035) ->
    count (fold_left (count_record oclc_035) records d) cat
    = (count d cat + length (List.filter test records))%nat.
Proof.
  induction records as [|marc records IH]; intros d cat test Hin; simpl.
  - lia.
  - rewrite (IH _ _ _ Hin), (count_record_key _ _ _ _ Hin).
    destruct (test marc); simpl; lia.
Qed.

End Scanner.

Lemma count_empty (key : string) : count ∅ key = 0%nat.
Proof. unfold count. now rewrite lookup_empty. Qed.

Lemma filter_length_le {A : Type} (f g : A -> bool) (l : list A) :
  (forall x, f x = true -> g x = true) ->
  (length (List.filter f l) <= length (List.filter g l))%nat.
Proof.
  intros Hfg. induction l as [|x l IH]; simpl; [lia |].
  destruct (f x) eqn:Hf.
  - rewrite (Hfg x Hf). simpl. lia.
  - destruct (g x); simpl; lia.
Qed.

Lemma filter_all {A : Type} (l : list A) :
  length (List.filter (fun _ => true) l) = length l.
Proof. induction l; simpl; auto. Qed.

End ScanFacts.

(** X21. The counter that marc_scanner returns holds, for each of its seven
    categories, the number of records of the file that pass the test of the
    category; for "Have 004 field" the test is that the record contains
    "004  ", with or without an equals sign before it. *)
Theorem marc_scanner_counts (cwd : string)
    (marc_records : string -> list string) (oclc_035 : string -> bool)
    (percent : nat -> nat -> string) (input_file : string)
    (file_data : gmap string nat) :
  fst (Scan.marc_scanner cwd marc_records oclc_035 percent input_file)
  = Some file_data ->
  forall cat test,
    In (cat, test) (Scan.category_tests oclc_035) ->
    Scan.count file_data cat
    = length (List.filter test
                (marc_records
                   (os_path_join (Scan.input_dir cwd) input_file))).
Proof.
  unfold Scan.marc_scanner. intros H cat test Hin.
  destruct (_ =? 0)%nat; [discriminate H |]. injection H as <-.
  rewrite (ScanFacts.count_fold oclc_035 _ _ _ _ Hin).
  now rewrite ScanFacts.count_empty.
Qed.

Lemma marc_scanner_counts_witness :
  Scan.count
    (fold_left (Scan.count_record (contains "(OCoLC)"))
       ["=001  1 =035  (OCoLC)1"; "=1004  x"] ∅)
    "Have 004 field"
  = 1%nat.
Proof.
  apply (marc_scanner_counts "/work"
           (fun _ => ["=001  1 =035  (OCoLC)1"; "=1004  x"])
           (contains "(OCoLC)") (fun _ _ => "") "a.mrk"
           _ eq_refl "Have 004 field" (contains "004  ")).
  right. right. left. reflexivity.
Defined.

(** X22. In the counter that marc_scanner returns no category counts more
    than "Total records", which counts every record of the file, and
    "OCLC in 035" counts no more than "Have 035".  The scanner returns None
    exactly when the file has no record, and then logs one warning and
    prints nothing. *)
Theorem marc_scanner_invariants (cwd : string)
    (marc_records : string -> list string) (oclc_035 : string -> bool)
    (percent : nat -> nat -> string) (input_file : string) :
  let records := marc_records (os_path_join (Scan.input_dir cwd) input_file) in
  let scanned := Scan.marc_scanner cwd marc_records oclc_035 percent input_file in
  (fst scanned = None <-> records = [])
  /\ (records = [] ->
      snd scanned
      = [Scan.LogWarning ("No records found in " +:+ input_file
                          +:+ ". Blank file?")])
  /\ (forall file_data,
        fst scanned = Some file_data ->
        Scan.count file_data "Total records" = length records
        /\ (forall cat, In cat Scan.cats ->
              (Scan.count file_data cat
               <= Scan.count file_data "Total records")%nat)
        /\ (Scan.count file_data "OCLC in 035"
            <= Scan.count file_data "Have 035")%nat).
Proof.
  cbv zeta. unfold Scan.marc_scanner.
  set (records := marc_records _).
  assert (Hkey : forall cat test,
             In (cat, test) (Scan.category_tests oclc_035) ->
             Scan.count (fold_left (Scan.count_record oclc_035) records ∅) cat
             = length (List.filter test records)).
  { intros cat test Hin.
    rewrite (ScanFacts.count_fold oclc_035 _ _ _ _ Hin).
    now rewrite ScanFacts.count_empty. }
  assert (Htotal : Scan.count
                     (fold_left (Scan.count_record oclc_035) records ∅)
                     "Total records" = length records).
  { rewrite (Hkey "Total records" (fun _ => true)) by (now left).
    apply ScanFacts.filter_all. }
  rewrite Htotal. split; [| split].
  - destruct records; simpl; split; congruence.
  - intros ->. reflexivity.
  - intros file_data H. destruct (_ =? 0)%nat; [discriminate H |].
    injection H as <-. split; [exact Htotal |]. split.
    + intros cat Hcat. rewrite Htotal.
      assert (Hex : exists test, In (cat, test) (Scan.category_tests oclc_035)).
      { unfold Scan.cats in Hcat. unfold Scan.category_tests.
        repeat destruct Hcat as [<- | Hcat]; [.. | destruct Hcat];
          eexists; simpl; eauto 10. }
      destruct Hex as (test & Hin). rewrite (Hkey _ _ Hin).
      rewrite <- (ScanFacts.filter_all records).
      now apply ScanFacts.filter_length_le.
    + rewrite (Hkey "OCLC in 035" oclc_035)
        by (simpl; eauto 10).
      rewrite (Hkey "Have 035"
                 (fun marc => oclc_035 marc || contains "=035  " marc))
        by (simpl; eauto 10).
      apply ScanFacts.filter_length_le. intros x ->. reflexivity.
Qed.

Lemma marc_scanner_invariants_witness :
  fst (Scan.marc_scanner "/work" (fun _ => []) (fun _ => false)
         (fun _ _ => "") "blank.mrk") = None
  /\ snd (Scan.marc_scanner "/work" (fun _ => []) (fun _ => false)
            (fun _ _ => "") "blank.mrk")
     = [Scan.LogWarning "No records found in blank.mrk. Blank file?"].
Proof.
  destruct (marc_scanner_invariants "/work" (fun _ => []) (fun _ => false)
              (fun _ _ => "") "blank.mrk") as (Hnone & Hlog & _).
  split; [apply Hnone; reflexivity | apply Hlog; reflexivity].
Defined.

(** ** The ISSNs of the JSTOR lists *)

Lemma add_issns_spec (raw_issns : list string) :
  forall (jstor : gset string) (issn : string),
    issn ∈ add_issns raw_issns jstor
    <-> issn ∈ jstor \/ (In issn raw_issns /\ accepted_issn issn = true).
Proof.
  induction raw_issns as [|x l IH]; intros jstor issn; simpl.
  - tauto.
  - assert (Hacc : accepted_issn x
                   = negb (String.eqb x "" || negb (contains "-" x))
                     && negb (contains "issn" (lower x))).
    { unfold accepted_issn. destruct (String.eqb x ""), (contains "-" x);
        reflexivity. }
    destruct (String.eqb x "" || negb (contains "-" x)) eqn:E1.
    + rewrite IH. split; [tauto |].
      intros [H | [[-> | H] Ha]]; [tauto | | tauto].
      rewrite Hacc in Ha. discriminate Ha.
    + destruct (contains "issn" (lower x)) eqn:E2.
      * rewrite IH. split; [tauto |].
        intros [H | [[-> | H] Ha]]; [tauto | | tauto].
        rewrite Hacc in Ha. discriminate Ha.
      * rewrite IH, elem_of_union, elem_of_singleton. split.
        -- intros [[-> | H] | [H Ha]]; [| tauto | tauto].
           right. split; [now left | now rewrite Hacc].
        -- intros [H | [[-> | H] Ha]]; tauto.
Qed.

Section JstorFacts.

Variable read_lines : string -> result (list string).

Lemma read_jstor_files_spec (validator_data_folder : string)
    (data_files : list string) :
  forall (jstor s : gset string),
    read_jstor_files read_lines validator_data_folder data_files jstor = Ret s ->
    forall issn,
      issn ∈ s
      <-> issn ∈ jstor
          \/ from_jstor_list read_lines validator_data_folder data_files issn.
Proof.
  unfold from_jstor_list.
  induction data_files as [|f files IH]; intros jstor s H issn;
    cbn [read_jstor_files] in H.
  - injection H as <-. split; [tauto |].
    intros [H | (? & ? & ? & [] & _)]. exact H.
  - assert (Hskip : is_jstor_list f = false ->
              read_jstor_files read_lines validator_data_folder files jstor
              = Ret s ->
              issn ∈ s
              <-> issn ∈ jstor
                  \/ (exists data_file lines line,
                        In data_file (f :: files)
                        /\ is_jstor_list data_file = true
                        /\ read_lines
                             (os_path_join validator_data_folder data_file)
                           = Ret lines
                        /\ In line lines /\ rstrip line = issn
                        /\ accepted_issn issn = true)).
    { intros Hf H'. rewrite (IH _ _ H' issn). split.
      - intros [Hj | (d & ls & l & Hin & Hrest)]; [tauto |].
        right. exists d, ls, l. split; [now right | exact Hrest].
      - intros [Hj | (d & ls & l & [<- | Hin] & Hd & Hrest)]; [tauto | |].
        + congruence.
        + right. exists d, ls, l. tauto. }
    unfold is_jstor_list in Hskip.
    destruct (starts_with "jstor" (lower f)) eqn:E1; cbn [negb] in H;
      [| apply Hskip; [reflexivity | exact H]].
    destruct (ends_with "xlsx" (lower f)) eqn:E2;
      [apply Hskip; [reflexivity | exact H] |].
    clear Hskip.
    destruct (read_lines (os_path_join validator_data_folder f))
      as [lines|e] eqn:Hr; [| discriminate H].
    unfold mbind, result_bind in H.
    rewrite (IH _ _ H issn), add_issns_spec. split.
    + intros [[Hj | [Hin Ha]] | (d & ls & l & Hin & Hrest)].
      * now left.
      * apply in_map_iff in Hin. destruct Hin as (line & Hl & Hin).
        right. exists f, lines, line. split; [now left |].
        split; [unfold is_jstor_list; now rewrite E1, E2 |].
        repeat split; auto.
      * right. exists d, ls, l. split; [now right | exact Hrest].
    + intros [Hj | (d & ls & l & [<- | Hin] & Hd & Hrd & Hl & Hs & Ha)].
      * tauto.
      * left. right. rewrite Hr in Hrd. injection Hrd as <-.
        split; [| exact Ha]. rewrite <- Hs. now apply in_map.
      * right. exists d, ls, l. tauto.
Qed.

End JstorFacts.

(** X23. When get_jstor_issns returns, the set holds exactly the lines,
    stripped of the whitespace at their end, of the files of the folder
    whose name starts with jstor and does not end with xlsx (in any case),
    that are not empty, contain a hyphen and do not contain issn in any
    case. *)
Theorem get_jstor_issns_spec (listdir : string -> list string)
    (read_lines : string -> result (list string))
    (validator_data_folder : string) (jstor : gset string) :
  get_jstor_issns listdir read_lines validator_data_folder = Ret jstor ->
  forall issn,
    issn ∈ jstor
    <-> exists data_file lines line,
          In data_file (listdir validator_data_folder)
          /\ is_jstor_list data_file = true
          /\ read_lines (os_path_join validator_data_folder data_file)
             = Ret lines
          /\ In line lines
          /\ rstrip line = issn
          /\ accepted_issn issn = true.
Proof.
  unfold get_jstor_issns. intros H issn.
  rewrite (read_jstor_files_spec _ _ _ _ _ H issn).
  unfold from_jstor_list. split; [| now right].
  intros [Habs | Hex]; [| exact Hex]. now apply not_elem_of_empty in Habs.
Qed.

Lemma get_jstor_issns_spec_witness :
  "1234-5678" ∈ ({[ "1234-5678" ]} : gset string)
  <-> exists data_file lines line,
        In data_file ["JSTOR_titles.txt"; "notes.txt"]
        /\ is_jstor_list data_file = true
        /\ (if String.eqb (os_path_join "data" data_file)
                "data/JSTOR_titles.txt"
            then Ret ["Print ISSN"; "1234-5678  "; ""]
            else Raise ValueError) = Ret lines
        /\ In line lines
        /\ rstrip line = "1234-5678"
        /\ accepted_issn "1234-5678" = true.
Proof.
  apply (get_jstor_issns_spec
           (fun _ => ["JSTOR_titles.txt"; "notes.txt"])
           (fun p => if String.eqb p "data/JSTOR_titles.txt"
                     then Ret ["Print ISSN"; "1234-5678  "; ""]
                     else Raise ValueError)
           "data" {[ "1234-5678" ]}).
  vm_compute. reflexivity.
Defined.

Lemma read_jstor_files_frame
    (read_lines read_lines' : string -> result (list string))
    (validator_data_folder : string) (data_files : list string) :
  (forall data_file,
     In data_file data_files -> is_jstor_list data_file = true ->
     read_lines (os_path_join validator_data_folder data_file)
     = read_lines' (os_path_join validator_data_folder data_file)) ->
  forall jstor,
    read_jstor_files read_lines validator_data_folder data_files jstor
    = read_jstor_files read_lines' validator_data_folder data_files jstor.
Proof.
  induction data_files as [|f files IH]; intros Hsame jstor; [reflexivity |].
  cbn [read_jstor_files].
  assert (IH' : forall j,
            read_jstor_files read_lines validator_data_folder files j
            = read_jstor_files read_lines' validator_data_folder files j).
  { apply IH. intros d Hin. apply Hsame. now right. }
  destruct (starts_with "jstor" (lower f)) eqn:E1; cbn [negb]; [| apply IH'].
  destruct (ends_with "xlsx" (lower f)) eqn:E2; [apply IH' |].
  rewrite <- (Hsame f); [| now left | unfold is_jstor_list; now rewrite E1, E2].
  destruct (read_lines _); [| reflexivity].
  unfold mbind, result_bind. apply IH'.
Qed.

(** X24. get_jstor_issns opens no file but the JSTOR lists: what it returns
    or raises is the same for two states of the folder whose files named
    jstor..., and not ...xlsx, read the same, whatever the other files hold
    and whether or not they can be read. *)
Theorem get_jstor_issns_reads_only_lists (listdir : string -> list string)
    (read_lines read_lines' : string -> result (list string))
    (validator_data_folder : string) :
  (forall data_file,
     In data_file (listdir validator_data_folder) ->
     is_jstor_list data_file = true ->
     read_lines (os_path_join validator_data_folder data_file)
     = read_lines' (os_path_join validator_data_folder data_file)) ->
  get_jstor_issns listdir read_lines validator_data_folder
  = get_jstor_issns listdir read_lines' validator_data_folder.
Proof.
  intros Hsame. unfold get_jstor_issns. now apply read_jstor_files_frame.
Qed.

Lemma get_jstor_issns_reads_only_lists_witness :
  get_jstor_issns (fun _ => ["jstor.xlsx"; "readme.txt"])
    (fun _ => Raise ValueError) "data"
  = get_jstor_issns (fun _ => ["jstor.xlsx"; "readme.txt"])
      (fun _ => Ret ["1234-5678"]) "data".
Proof.
  apply (get_jstor_issns_reads_only_lists
           (fun _ => ["jstor.xlsx"; "readme.txt"])
           (fun _ => Raise ValueError) (fun _ => Ret ["1234-5678"]) "data").
  intros data_file [<- | [<- | []]] H; vm_compute in H; discriminate H.
Defined.
